(** * trueflow-module: the event-capture-and-delivery pipeline

    A shallow embedding of the observers ([Clicks], [MouseMoves], [Scrolls],
    [FormSubmissions], [DetectPageChange]) and of the coordinator
    ([FlowProvider]), followed by the properties of the specification that
    are stated about them.

    Conventions of the embedding:
    - a JavaScript [number] is an IEEE 754 binary64 value ([float]);
    - a value that may be [null] or [undefined] is an [option] where the code
      treats both alike, and a [nullable] where a hook's state distinguishes
      them;
    - an object used as a dictionary is a [gmap] from property names;
    - a React hook is a function of its props, its state and the browser's
      state at the time of the call; a state setter that the handler does not
      reach is an unchanged state;
    - a listener runs with the props of the last render, and the renders and
      effects that an input sets off are over before the next input arrives;
    - strings are byte strings and [toLowerCase] acts on the ASCII letters. *)

From Stdlib Require Import ZArith String Ascii List Bool Floats.
From stdpp Require Import gmap strings list.
Import ListNotations.

Local Open Scope string_scope.

(** ** The browser: strings, elements, events *)

Module DOM.

Definition number : Type := float.

(** [String.prototype.toLowerCase] on the ASCII range. *)
Definition toLowerCase_ascii (c : ascii) : ascii :=
  let n := nat_of_ascii c in
  if (65 <=? n)%nat && (n <=? 90)%nat then ascii_of_nat (n + 32) else c.

Fixpoint toLowerCase (s : string) : string :=
  match s with
  | EmptyString => EmptyString
  | String c rest => String (toLowerCase_ascii c) (toLowerCase rest)
  end.

(** [Array.prototype.join]. *)
Definition join (sep : string) (l : list string) : string := String.concat sep l.

(** [Array.prototype.includes] on an array of strings. *)
Definition includes (l : list string) (x : string) : bool :=
  existsb (String.eqb x) l.

(** Truthiness of a [string | null]: [null] and the empty string are falsy. *)
Definition truthy (v : option string) : bool :=
  match v with
  | None => false
  | Some s => negb (String.eqb s "")
  end.

(** The function object behind an inline handler, by identity. *)
Definition EventHandler : Type := nat.

(** An element as a handler sees it: its own properties and the chain of
    [parentElement] links above it, which ends at the root element. *)
#[local] Unset Elimination Schemes.
Inductive HTMLElement : Type := mkHTMLElement {
  tagName : string;
  onclick : option EventHandler;
  attributes : gmap string string;
  parentElement : option HTMLElement
}.
#[local] Set Elimination Schemes.

(** For an element, [nodeName] is its [tagName]. *)
Definition nodeName (el : HTMLElement) : string := tagName el.

Definition getAttribute (el : HTMLElement) (qualifiedName : string) : option string :=
  attributes el !! qualifiedName.

Record DOMRect : Type := mkDOMRect {
  left : number;
  top : number;
  width : number;
  height : number
}.

Record MouseEvent : Type := mkMouseEvent {
  target : HTMLElement;
  button : number;
  pageX : number;
  pageY : number
}.

(** What the handlers read from [window], [document] and the clock. *)
Record Window : Type := mkWindow {
  innerWidth : number;
  innerHeight : number;
  scrollX : number;
  scrollY : number;
  href : string;          (* window.location.href *)
  title : string;         (* document.title *)
  getTime : number        (* new Date().getTime() *)
}.

(** [a ?? b] on a [number | undefined]. *)
Definition nullish (a : option number) (b : number) : number :=
  match a with Some x => x | None => b end.

End DOM.

(** ** clicks.ts *)

Module Clicks.
Import DOM.

Record ClickPositionProps : Type := mkClickPosition {
  pageX : number;
  pageY : number;
  windowWidth : number;
  windowHeight : number;
  timestamp : number;
  isClickable : bool;
  clickType : string;
  clickableElement : option string;
  tree : option string;
  type : string;
  context : option string
}.

Definition dquote : ascii := "034"%char.

Definition clickableTags : list string :=
  [ "a"; "button"; "input";
    "input[type=" ++ String dquote ("submit" ++ String dquote "]");
    "[onclick]" ].

Definition isClickable_ (target : HTMLElement) : bool :=
  let isClickable := match onclick target with Some _ => true | None => false end in
  let isClickableTag := includes clickableTags (toLowerCase (tagName target)) in
  if isClickable || isClickableTag || truthy (getAttribute target "data-clickable")
  then true
  else false.

(** The [while (currentElement)] loop: each element met on the way up is
    put in front of the array. *)
Fixpoint walk (currentElement : HTMLElement) (tree : list HTMLElement) : list HTMLElement :=
  match currentElement with
  | mkHTMLElement _ _ _ parent =>
      let tree := currentElement :: tree in
      match parent with
      | Some p => walk p tree
      | None => tree
      end
  end.

Definition treeAsString (tree : list HTMLElement) : option string :=
  let s := toLowerCase (join " > " (map tagName tree)) in
  if String.eqb s "" then None else Some s.

(** [handleMouseClick]: [None] when the handler returns before
    [setClickPosition], otherwise the record it sets. *)
Definition handleMouseClick (ref_current : option DOMRect) (allowRecord : bool)
    (window : Window) (e : MouseEvent) : option ClickPositionProps :=
  if negb allowRecord then None else
  let target := DOM.target e in
  let windowWidth := innerWidth window in
  let windowHeight := innerHeight window in
  let timestamp := getTime window in
  let clickType :=
    if (button e =? 0)%float then "left"
    else if (button e =? 2)%float then "right"
    else "" in
  let '(clickableElement, element) :=
    if isClickable_ target
    then (Some (toLowerCase (nodeName target)), Some target)
    else (None, None) in
  let tree :=
    match clickableElement, element with
    | Some _, Some el => walk el []
    | _, _ => []
    end in
  let treeAsString := treeAsString tree in
  let boundingRect := ref_current in
  let pageX := (DOM.pageX e - nullish (option_map left boundingRect) 0)%float in
  let pageY := (DOM.pageY e - nullish (option_map top boundingRect) 0)%float in
  Some {| pageX := pageX;
          pageY := pageY;
          windowWidth := windowWidth;
          windowHeight := windowHeight;
          timestamp := timestamp;
          isClickable := isClickable_ target;
          clickType := clickType;
          clickableElement := clickableElement;
          tree := treeAsString;
          type := "click";
          context := getAttribute target "data-readable" |}.

End Clicks.

(** ** mouse_movements.ts *)

Module MouseMoves.
Import DOM.

Record MousePositionProps : Type := mkMousePosition {
  pageX : number;
  pageY : number;
  windowWidth : number;
  windowHeight : number;
  timestamp : number;
  isClickable : bool;
  clickableElement : option string;
  type : string;
  tree : option string;
  context : option string
}.

Definition dquote : ascii := "034"%char.

Definition clickableTags : list string :=
  [ "a"; "button"; "input";
    "input[type=" ++ String dquote ("submit" ++ String dquote "]");
    "[onclick]" ].

Definition isClickable_ (target : HTMLElement) : bool :=
  let isClickable := match onclick target with Some _ => true | None => false end in
  let isClickableTag := includes clickableTags (toLowerCase (tagName target)) in
  if isClickable || isClickableTag || truthy (getAttribute target "data-clickable")
  then true
  else false.

Fixpoint walk (currentElement : HTMLElement) (tree : list HTMLElement) : list HTMLElement :=
  match currentElement with
  | mkHTMLElement _ _ _ parent =>
      let tree := currentElement :: tree in
      match parent with
      | Some p => walk p tree
      | None => tree
      end
  end.

Definition treeAsString (tree : list HTMLElement) : option string :=
  let s := toLowerCase (join " > " (map tagName tree)) in
  if String.eqb s "" then None else Some s.

(** [handleMouseMove]: [None] when the handler returns before
    [setMousePosition], otherwise the record it sets. The handler also
    computes a [clickType], which the record does not take. *)
Definition handleMouseMove (ref_current : option DOMRect) (allowRecord : bool)
    (window : Window) (e : MouseEvent) : option MousePositionProps :=
  if negb allowRecord then None else
  let target := DOM.target e in
  let windowWidth := innerWidth window in
  let windowHeight := innerHeight window in
  let timestamp := getTime window in
  let clickType :=
    if (button e =? 0)%float then "left"
    else if (button e =? 2)%float then "right"
    else "" in
  let '(clickableElement, element) :=
    if isClickable_ target
    then (Some (toLowerCase (nodeName target)), Some target)
    else (None, None) in
  let tree :=
    match clickableElement, element with
    | Some _, Some el => walk el []
    | _, _ => []
    end in
  let treeAsString := treeAsString tree in
  let boundingRect := ref_current in
  let pageX := (DOM.pageX e - nullish (option_map left boundingRect) 0)%float in
  let pageY := (DOM.pageY e - nullish (option_map top boundingRect) 0)%float in
  Some {| pageX := pageX;
          pageY := pageY;
          windowWidth := windowWidth;
          windowHeight := windowHeight;
          timestamp := timestamp;
          isClickable := isClickable_ target;
          clickableElement := clickableElement;
          tree := treeAsString;
          type := "move";
          context := getAttribute target "data-readable" |}.

End MouseMoves.

(** ** scroll.ts *)

Module Scrolls.
Import DOM.

Record ScrollPositionProps : Type := mkScrollPosition {
  scrollX : number;
  scrollY : number;
  windowWidth : number;
  windowHeight : number;
  timestamp : number
}.

Definition handleMouseScroll (allowRecord : bool) (window : Window)
    : option ScrollPositionProps :=
  if negb allowRecord then None else
  let windowWidth := innerWidth window in
  let windowHeight := innerHeight window in
  let timestamp := getTime window in
  Some {| scrollX := DOM.scrollX window;
          scrollY := DOM.scrollY window;
          windowWidth := windowWidth;
          windowHeight := windowHeight;
          timestamp := timestamp |}.

End Scrolls.

(** ** page_change.ts *)

Module DetectPageChange.
Import DOM.

Record PageDetails : Type := mkPageDetails {
  url : string;
  title : string
}.

(** The hook's state is an [object | null]; [useState] starts it at the
    current location and title. *)
Definition initial (window : Window) : option PageDetails :=
  Some {| url := href window; title := DOM.title window |}.

(** The interval's callback, closed over [pageDetails]: the argument of
    [setPageDetails] when it is called, [None] when it is not.
    [pageDetails?.url] is [undefined] on a [null] state and so differs from
    every string. *)
Definition callback (pageDetails : option PageDetails) (window : Window)
    : option PageDetails :=
  let differs :=
    match pageDetails with
    | Some p => negb (String.eqb (href window) (url p))
    | None => true
    end in
  if differs
  then Some {| url := href window; title := DOM.title window |}
  else None.

(** One period of the interval: the argument of [setPageDetails] when it
    is called. The effect sets no interval when [allowRecord] is false. *)
Definition interval (allowRecord : bool) (pageDetails : option PageDetails)
    (window : Window) : option PageDetails :=
  if negb allowRecord then None else callback pageDetails window.

(** The hook's state after one period. *)
Definition tick (allowRecord : bool) (pageDetails : option PageDetails)
    (window : Window) : option PageDetails :=
  match interval allowRecord pageDetails window with
  | Some p => Some p
  | None => pageDetails
  end.

(** The state after a run of ticks, each with the browser's state then. *)
Definition run (allowRecord : bool) (pageDetails : option PageDetails)
    (ticks : list Window) : option PageDetails :=
  fold_left (tick allowRecord) ticks pageDetails.

(** How many ticks of a run call [setPageDetails]. *)
Fixpoint updates (allowRecord : bool) (pageDetails : option PageDetails)
    (ticks : list Window) : nat :=
  match ticks with
  | [] => 0
  | window :: rest =>
      (match interval allowRecord pageDetails window with Some _ => 1 | None => 0 end)
      + updates allowRecord (tick allowRecord pageDetails window) rest
  end.

End DetectPageChange.

(** ** forms.ts *)

Module FormSubmissions.
Import DOM.

(** A [FormDataEntryValue] is a string or a file. *)
Inductive FormDataEntryValue : Type :=
| text (s : string)
| file (filename : string).

(** A form control that takes part in form data: its [name] (empty when it
    has none), its [type] attribute, its current value and whether it is
    disabled. *)
Record HTMLInputElement : Type := mkInput {
  name : string;
  type : string;
  value : FormDataEntryValue;
  disabled : bool
}.

Record HTMLFormElement : Type := mkForm {
  elements : list HTMLInputElement
}.

Record SubmitEvent : Type := mkSubmitEvent {
  target : HTMLFormElement
}.

(** The document as the handler queries it: all its [input] elements, in
    tree order, those of the submitted form among them. *)
Record Document : Type := mkDocument {
  inputs : list HTMLInputElement
}.

(** [new FormData(form)]: one entry for each enabled control with a name, in
    tree order. *)
Definition FormData (form : HTMLFormElement) : list (string * FormDataEntryValue) :=
  flat_map
    (fun el => if disabled el || String.eqb (name el) "" then [] else [(name el, value el)])
    (elements form).

(** [FormData.prototype.delete]: every entry of that name goes. *)
Definition delete (name : string) (data : list (string * FormDataEntryValue))
    : list (string * FormDataEntryValue) :=
  List.filter (fun entry => negb (String.eqb (fst entry) name)) data.

(** [document.querySelectorAll] on the selector of the password inputs; a
    selector matches the value of [type] without regard to ASCII case. *)
Definition is_password (input : HTMLInputElement) : bool :=
  String.eqb (toLowerCase (type input)) "password".

Definition querySelectorAll_password (document : Document) : list HTMLInputElement :=
  List.filter is_password (inputs document).

(** What a call of the handler does: whether [preventDefault] was called,
    and the argument of [setForm] when it was called. The object the entries
    are assigned to is a map from their names (a name that [Object.prototype]
    answers by an accessor, such as [__proto__], is outside this model). *)
Record Handled : Type := mkHandled {
  defaultPrevented : bool;
  setForm : option (gmap string FormDataEntryValue)
}.

Definition handleFormSubmissions (allowRecord : bool) (document : Document)
    (e : SubmitEvent) : Handled :=
  if negb allowRecord
  then {| defaultPrevented := false; setForm := None |}
  else
    let data := FormData (target e) in
    let passwordInputs := querySelectorAll_password document in
    let data := fold_left (fun data input => delete (name input) data) passwordInputs data in
    let newData :=
      fold_left (fun newData entry => <[fst entry := snd entry]> newData) data
                (∅ : gmap string FormDataEntryValue) in
    {| defaultPrevented := true; setForm := Some newData |}.

End FormSubmissions.

(** ** index.tsx *)

Module FlowProvider.
Import DOM.
Import DetectPageChange(PageDetails).
Import FormSubmissions(FormDataEntryValue, Document, SubmitEvent).

(** The state of a hook declared as [useState<T | null>()]: [undefined]
    until first set, [null] after a cleanup. *)
Inductive nullable (A : Type) : Type :=
| undefined
| null
| object (a : A).
Arguments undefined {A}.
Arguments null {A}.
Arguments object {A} a.

(** The directive the server passes to the [getData] callback. *)
Record RecordingDirective : Type := mkDirective {
  enabled : list string;
  id : nullable number
}.

(** The [event] of a wire message: the record of one of the observers. *)
Inductive Event : Type :=
| click (r : Clicks.ClickPositionProps)
| move (r : MouseMoves.MousePositionProps)
| formData (r : gmap string FormDataEntryValue)
| scroll (r : Scrolls.ScrollPositionProps).

(** What [socket.emit] is called with. *)
Inductive Emit : Type :=
| events (event : Event) (recordingsId : option number) (pageDetails : option PageDetails)
    (* "events", { event, recordingsId, ...pageDetails } *)
| events_page (events : option PageDetails) (recordingsId : option number)
    (* "events", { events: pageDetails, recordingsId } *)
| getData (userId : string).
    (* "getData", userId, GetRecordingInstructions *)

(** The browser at the time of an event: [window] and the clock, the
    document, and the bounding rectangle of the container behind
    [childRef] when there is one. *)
Record Browser : Type := mkBrowser {
  window : Window;
  document : Document;
  childRef : option DOMRect
}.

(** The [uid] prop, the component's own state and [socketRef], and the
    state of the hooks it calls. *)
Record State : Type := mkState {
  uid : string;
  connectStatus : bool;
  userId : string;
  recordingTypes : list string;
  recordingsId : option number;
  socketRef : bool;
  ClickPosition : nullable Clicks.ClickPositionProps;
  MousePosition : nullable MouseMoves.MousePositionProps;
  form : nullable (gmap string FormDataEntryValue);
  ScrollPosition : nullable Scrolls.ScrollPositionProps;
  pageDetails : option PageDetails
}.

Definition set_uid v s :=
  mkState v (connectStatus s) (userId s) (recordingTypes s) (recordingsId s) (socketRef s)
          (ClickPosition s) (MousePosition s) (form s) (ScrollPosition s) (pageDetails s).
Definition set_connectStatus v s :=
  mkState (uid s) v (userId s) (recordingTypes s) (recordingsId s) (socketRef s)
          (ClickPosition s) (MousePosition s) (form s) (ScrollPosition s) (pageDetails s).
Definition set_userId v s :=
  mkState (uid s) (connectStatus s) v (recordingTypes s) (recordingsId s) (socketRef s)
          (ClickPosition s) (MousePosition s) (form s) (ScrollPosition s) (pageDetails s).
Definition set_recordingTypes v s :=
  mkState (uid s) (connectStatus s) (userId s) v (recordingsId s) (socketRef s)
          (ClickPosition s) (MousePosition s) (form s) (ScrollPosition s) (pageDetails s).
Definition set_recordingsId v s :=
  mkState (uid s) (connectStatus s) (userId s) (recordingTypes s) v (socketRef s)
          (ClickPosition s) (MousePosition s) (form s) (ScrollPosition s) (pageDetails s).
Definition set_socketRef v s :=
  mkState (uid s) (connectStatus s) (userId s) (recordingTypes s) (recordingsId s) v
          (ClickPosition s) (MousePosition s) (form s) (ScrollPosition s) (pageDetails s).
Definition set_ClickPosition v s :=
  mkState (uid s) (connectStatus s) (userId s) (recordingTypes s) (recordingsId s) (socketRef s)
          v (MousePosition s) (form s) (ScrollPosition s) (pageDetails s).
Definition set_MousePosition v s :=
  mkState (uid s) (connectStatus s) (userId s) (recordingTypes s) (recordingsId s) (socketRef s)
          (ClickPosition s) v (form s) (ScrollPosition s) (pageDetails s).
Definition set_form v s :=
  mkState (uid s) (connectStatus s) (userId s) (recordingTypes s) (recordingsId s) (socketRef s)
          (ClickPosition s) (MousePosition s) v (ScrollPosition s) (pageDetails s).
Definition set_ScrollPosition v s :=
  mkState (uid s) (connectStatus s) (userId s) (recordingTypes s) (recordingsId s) (socketRef s)
          (ClickPosition s) (MousePosition s) (form s) v (pageDetails s).
Definition set_pageDetails v s :=
  mkState (uid s) (connectStatus s) (userId s) (recordingTypes s) (recordingsId s) (socketRef s)
          (ClickPosition s) (MousePosition s) (form s) (ScrollPosition s) v.

(** *** Effects

    What a dependency array can name. An effect runs after a render in
    which one of its dependencies changed; it sees the state of that render
    ([s] below) and may set state for the next one. *)
Inductive Dep : Type :=
| uid_
| access_key_
| connectStatus_
| userId_
| ClickPosition_
| MousePosition_
| form_
| ScrollPosition_
| pageDetails_.

Definition Dep_eqb (a b : Dep) : bool :=
  match a, b with
  | uid_, uid_ | access_key_, access_key_ | connectStatus_, connectStatus_
  | userId_, userId_ | ClickPosition_, ClickPosition_ | MousePosition_, MousePosition_
  | form_, form_ | ScrollPosition_, ScrollPosition_ | pageDetails_, pageDetails_ => true
  | _, _ => false
  end.

Definition depends (deps changed : list Dep) : bool :=
  existsb (fun d => existsb (Dep_eqb d) changed) deps.

(** The effects of one render as they run: the state for the next render,
    the state cells set to a new value, and the messages emitted. *)
Record Commit : Type := mkCommit {
  next : State;
  dirty : list Dep;
  emitted : list Emit
}.

Definition emit (m : Emit) (k : Commit) : Commit :=
  mkCommit (next k) (dirty k) (emitted k ++ [m]).

(** A setter leaves the state alone when it is given the value the state
    already has. *)
Definition setUserId (v : string) (k : Commit) : Commit :=
  if String.eqb v (userId (next k)) then k
  else mkCommit (set_userId v (next k)) (dirty k ++ [userId_]) (emitted k).

Definition clickCleanup (k : Commit) : Commit :=
  match ClickPosition (next k) with
  | null => k
  | _ => mkCommit (set_ClickPosition null (next k)) (dirty k ++ [ClickPosition_]) (emitted k)
  end.

Definition cleanupMoves (k : Commit) : Commit :=
  match MousePosition (next k) with
  | null => k
  | _ => mkCommit (set_MousePosition null (next k)) (dirty k ++ [MousePosition_]) (emitted k)
  end.

Definition formCleanup (k : Commit) : Commit :=
  match form (next k) with
  | null => k
  | _ => mkCommit (set_form null (next k)) (dirty k ++ [form_]) (emitted k)
  end.

Definition scrollCleanup (k : Commit) : Commit :=
  match ScrollPosition (next k) with
  | null => k
  | _ => mkCommit (set_ScrollPosition null (next k)) (dirty k ++ [ScrollPosition_]) (emitted k)
  end.

(** [useEffect(() => setUserId(uid), [uid])] *)
Definition effect_uid (s : State) (k : Commit) : Commit :=
  setUserId (uid s) k.

(** The effect on [access_key] makes the socket and stores it in
    [socketRef]; its connect and disconnect come later, as inputs. *)
Definition effect_socket (s : State) (k : Commit) : Commit :=
  mkCommit (set_socketRef true (next k)) (dirty k) (emitted k).

(** The effect on [pageDetails]; the component declares it twice. *)
Definition effect_page (s : State) (k : Commit) : Commit :=
  if negb (connectStatus s) then k
  else if negb (socketRef (next k)) then k
  else emit (events_page (pageDetails s) (recordingsId s)) k.

Definition effect_getData (s : State) (k : Commit) : Commit :=
  if negb (connectStatus s) then k
  else if negb (socketRef (next k)) then k
  else emit (getData (userId s)) k.

Definition sendEvent (s : State) (event : Event) (cleanup : Commit -> Commit)
    (k : Commit) : Commit :=
  if negb (socketRef (next k)) then k
  else if connectStatus s
       then cleanup (emit (events event (recordingsId s) (pageDetails s)) k)
       else k.

Definition effect_forward (s : State) (k : Commit) : Commit :=
  let k := match ClickPosition s with
           | object r => sendEvent s (click r) clickCleanup k
           | _ => k
           end in
  let k := match MousePosition s with
           | object r => sendEvent s (move r) cleanupMoves k
           | _ => k
           end in
  let k := match form s with
           | object r => sendEvent s (formData r) formCleanup k
           | _ => k
           end in
  let k := match ScrollPosition s with
           | object r => sendEvent s (scroll r) scrollCleanup k
           | _ => k
           end in
  k.

(** The effects of the component in the order it declares them, each run
    when its dependency array names a changed cell. *)
Definition run_effects (changed : list Dep) (s : State) : Commit :=
  let k := mkCommit s [] [] in
  let k := if depends [uid_] changed then effect_uid s k else k in
  let k := if depends [access_key_] changed then effect_socket s k else k in
  let k := if depends [pageDetails_] changed then effect_page s k else k in
  let k := if depends [pageDetails_] changed then effect_page s k else k in
  let k := if depends [connectStatus_; userId_] changed then effect_getData s k else k in
  let k := if depends [ClickPosition_; MousePosition_; pageDetails_; form_; ScrollPosition_] changed
           then effect_forward s k else k in
  k.

(** Renders follow one another while an effect has set state. *)
Fixpoint commit (fuel : nat) (changed : list Dep) (s : State) : Commit :=
  match fuel with
  | O => mkCommit s changed []
  | S fuel =>
      match changed with
      | [] => mkCommit s [] []
      | _ =>
          let k := run_effects changed s in
          let k' := commit fuel (dirty k) (next k) in
          mkCommit (next k') (dirty k') (emitted k ++ emitted k')
      end
  end.

(** *** The component *)

Definition initial (window : Window) (uid : string) : State :=
  {| uid := uid;
     connectStatus := false;
     userId := uid;
     recordingTypes := [];
     recordingsId := None;
     socketRef := false;
     ClickPosition := undefined;
     MousePosition := undefined;
     form := undefined;
     ScrollPosition := undefined;
     pageDetails := DetectPageChange.initial window |}.

(** The first render: every effect runs. *)
Definition mount (window : Window) (uid : string) : Commit :=
  commit 2
    [uid_; access_key_; connectStatus_; userId_; ClickPosition_; MousePosition_;
     form_; ScrollPosition_; pageDetails_]
    (initial window uid).

(** What reaches the mounted component. *)
Inductive Input : Type :=
| mousedown (e : MouseEvent)
| mousemove (e : MouseEvent)
| scroll_event
| submit (e : SubmitEvent)
| interval
| connect
| disconnect
| GetRecordingInstructions (data : RecordingDirective)
| props (uid : string).

Definition setConnectStatus (v : bool) (s : State) : State * list Dep :=
  if Bool.eqb v (connectStatus s) then (s, [])
  else (set_connectStatus v s, [connectStatus_]).

(** The listener or callback that takes the input, with the [allowRecord]
    its hook was given in the last render: the state it leaves and the
    cells it set. *)
Definition handle (b : Browser) (s : State) (i : Input) : State * list Dep :=
  match i with
  | mousedown e =>
      match Clicks.handleMouseClick (childRef b) (includes (recordingTypes s) "clicks")
              (window b) e with
      | Some r => (set_ClickPosition (object r) s, [ClickPosition_])
      | None => (s, [])
      end
  | mousemove e =>
      match MouseMoves.handleMouseMove (childRef b) (includes (recordingTypes s) "movements")
              (window b) e with
      | Some r => (set_MousePosition (object r) s, [MousePosition_])
      | None => (s, [])
      end
  | scroll_event =>
      match Scrolls.handleMouseScroll (includes (recordingTypes s) "scrolls") (window b) with
      | Some r => (set_ScrollPosition (object r) s, [ScrollPosition_])
      | None => (s, [])
      end
  | submit e =>
      match FormSubmissions.setForm
              (FormSubmissions.handleFormSubmissions (includes (recordingTypes s) "forms")
                 (document b) e) with
      | Some r => (set_form (object r) s, [form_])
      | None => (s, [])
      end
  | interval =>
      match DetectPageChange.interval true (pageDetails s) (window b) with
      | Some p => (set_pageDetails (Some p) s, [pageDetails_])
      | None => (s, [])
      end
  | connect => setConnectStatus true s
  | disconnect => setConnectStatus false s
  | GetRecordingInstructions data =>
      let recordingsId := match id data with object n => Some n | _ => None end in
      (set_recordingTypes (enabled data) (set_recordingsId recordingsId s), [])
  | props uid =>
      if String.eqb uid (FlowProvider.uid s) then (s, []) else (set_uid uid s, [uid_])
  end.

(** One input, and the renders and effects that follow it. *)
Definition step (b : Browser) (s : State) (i : Input) : Commit :=
  let '(s', changed) := handle b s i in
  commit 2 changed s'.

(** A run of inputs from a state: the final state and all that was emitted. *)
Fixpoint run (s : State) (inputs : list (Browser * Input)) : State * list Emit :=
  match inputs with
  | [] => (s, [])
  | (b, i) :: rest =>
      let k := step b s i in
      let '(s', out) := run (next k) rest in
      (s', (emitted k ++ out)%list)
  end.

End FlowProvider.

(** * The vocabulary of the specification

    Definitions that follow the words of the specification, to state what the
    code above is compared with. *)

Module Spec.
Import DOM.

(** The ancestor path: the elements from the root element down to [el]. *)
Fixpoint path_from_root (el : HTMLElement) : list HTMLElement :=
  match el with
  | mkHTMLElement _ _ _ parent =>
      match parent with
      | Some p => (path_from_root p ++ [el])%list
      | None => [el]
      end
  end.

(** The lowercase tag names along that path, joined. *)
Definition ancestor_path (el : HTMLElement) : string :=
  join " > " (map (fun x => toLowerCase (tagName x)) (path_from_root el)).

(** The value of a property of a record on the wire. *)
Inductive JSValue : Type :=
| js_number (n : number)
| js_boolean (b : bool)
| js_string (s : string)
| js_null
| js_undefined.

Definition string_or (absent : JSValue) (v : option string) : JSValue :=
  match v with Some s => js_string s | None => absent end.

(** The properties of a Click Record, as the interface [ClickPositionProps]
    and the object literal of [handleMouseClick] name them. *)
Definition click_properties (r : Clicks.ClickPositionProps) : gmap string JSValue :=
  list_to_map
    [ ("pageX", js_number (Clicks.pageX r));
      ("pageY", js_number (Clicks.pageY r));
      ("windowWidth", js_number (Clicks.windowWidth r));
      ("windowHeight", js_number (Clicks.windowHeight r));
      ("timestamp", js_number (Clicks.timestamp r));
      ("isClickable", js_boolean (Clicks.isClickable r));
      ("clickType", js_string (Clicks.clickType r));
      ("clickableElement", string_or js_null (Clicks.clickableElement r));
      ("tree", string_or js_undefined (Clicks.tree r));
      ("type", js_string (Clicks.type r));
      ("context", string_or js_null (Clicks.context r)) ].

(** The properties of a Move Record, as [MousePositionProps] and the object
    literal of [handleMouseMove] name them. *)
Definition move_properties (r : MouseMoves.MousePositionProps) : gmap string JSValue :=
  list_to_map
    [ ("pageX", js_number (MouseMoves.pageX r));
      ("pageY", js_number (MouseMoves.pageY r));
      ("windowWidth", js_number (MouseMoves.windowWidth r));
      ("windowHeight", js_number (MouseMoves.windowHeight r));
      ("timestamp", js_number (MouseMoves.timestamp r));
      ("isClickable", js_boolean (MouseMoves.isClickable r));
      ("clickableElement", string_or js_null (MouseMoves.clickableElement r));
      ("tree", string_or js_undefined (MouseMoves.tree r));
      ("type", js_string (MouseMoves.type r));
      ("context", string_or js_null (MouseMoves.context r)) ].

(** The fields the two records share. *)
Definition shared_fields : list string :=
  [ "pageX"; "pageY"; "windowWidth"; "windowHeight"; "timestamp"; "isClickable";
    "clickableElement"; "tree"; "context" ].

(** The categories a directive can enable, and the observer of each. *)
Inductive Category : Type :=
| clicks
| movements
| forms
| scrolls.

Definition category_name (c : Category) : string :=
  match c with
  | clicks => "clicks"
  | movements => "movements"
  | forms => "forms"
  | scrolls => "scrolls"
  end.

Definition is_enabled (c : Category) (s : FlowProvider.State) : bool :=
  includes (FlowProvider.recordingTypes s) (category_name c).

(** The observer a DOM event arrives at. *)
Definition category_of (i : FlowProvider.Input) : option Category :=
  match i with
  | FlowProvider.mousedown _ => Some clicks
  | FlowProvider.mousemove _ => Some movements
  | FlowProvider.submit _ => Some forms
  | FlowProvider.scroll_event => Some scrolls
  | _ => None
  end.

(** The pending record of a category: the record its observer holds. *)
Definition pending (c : Category) (s : FlowProvider.State) : option FlowProvider.Event :=
  match c with
  | clicks =>
      match FlowProvider.ClickPosition s with
      | FlowProvider.object r => Some (FlowProvider.click r)
      | _ => None
      end
  | movements =>
      match FlowProvider.MousePosition s with
      | FlowProvider.object r => Some (FlowProvider.move r)
      | _ => None
      end
  | forms =>
      match FlowProvider.form s with
      | FlowProvider.object r => Some (FlowProvider.formData r)
      | _ => None
      end
  | scrolls =>
      match FlowProvider.ScrollPosition s with
      | FlowProvider.object r => Some (FlowProvider.scroll r)
      | _ => None
      end
  end.

(** The record an observer constructs on an input, if it constructs one. *)
Definition captured (b : FlowProvider.Browser) (s : FlowProvider.State)
    (i : FlowProvider.Input) : option FlowProvider.Event :=
  match i with
  | FlowProvider.mousedown e =>
      option_map FlowProvider.click
        (Clicks.handleMouseClick (FlowProvider.childRef b) (is_enabled clicks s)
           (FlowProvider.window b) e)
  | FlowProvider.mousemove e =>
      option_map FlowProvider.move
        (MouseMoves.handleMouseMove (FlowProvider.childRef b) (is_enabled movements s)
           (FlowProvider.window b) e)
  | FlowProvider.submit e =>
      option_map FlowProvider.formData
        (FormSubmissions.setForm
           (FormSubmissions.handleFormSubmissions (is_enabled forms s)
              (FlowProvider.document b) e))
  | FlowProvider.scroll_event =>
      option_map FlowProvider.scroll
        (Scrolls.handleMouseScroll (is_enabled scrolls s) (FlowProvider.window b))
  | _ => None
  end.

(** The dependency a category's record is named by. *)
Definition dep_of (c : Category) : FlowProvider.Dep :=
  match c with
  | clicks => FlowProvider.ClickPosition_
  | movements => FlowProvider.MousePosition_
  | forms => FlowProvider.form_
  | scrolls => FlowProvider.ScrollPosition_
  end.

Definition categories : list Category := [clicks; movements; forms; scrolls].

(** A drain: every pending record goes out in a message of its own, with the
    session id and the page details of the state, and its observer is
    cleaned up. *)
Definition pending_records (s : FlowProvider.State) : list FlowProvider.Event :=
  flat_map (fun c => match pending c s with Some r => [r] | None => [] end) categories.

Definition forwarded (s : FlowProvider.State) : list FlowProvider.Emit :=
  map (fun r => FlowProvider.events r (FlowProvider.recordingsId s) (FlowProvider.pageDetails s))
      (pending_records s).

Definition cleaned {A : Type} (v : FlowProvider.nullable A) : FlowProvider.nullable A :=
  match v with
  | FlowProvider.object _ => FlowProvider.null
  | _ => v
  end.

Definition drained (s : FlowProvider.State) : FlowProvider.State :=
  FlowProvider.set_ClickPosition (cleaned (FlowProvider.ClickPosition s))
    (FlowProvider.set_MousePosition (cleaned (FlowProvider.MousePosition s))
       (FlowProvider.set_form (cleaned (FlowProvider.form s))
          (FlowProvider.set_ScrollPosition (cleaned (FlowProvider.ScrollPosition s)) s))).

Definition pending_deps (s : FlowProvider.State) : list FlowProvider.Dep :=
  flat_map (fun c => match pending c s with Some _ => [dep_of c] | None => [] end) categories.

(** A message that carries the record of an observer. *)
Definition is_record_message (m : FlowProvider.Emit) : bool :=
  match m with
  | FlowProvider.events _ _ _ => true
  | _ => false
  end.

(** The states the mounted component can be in. *)
Definition reachable (s : FlowProvider.State) : Prop :=
  exists window uid inputs,
    s = fst (FlowProvider.run (FlowProvider.next (FlowProvider.mount window uid)) inputs).

(** The value a name has in a list of entries read as a map: that of the
    last entry of the name. *)
Fixpoint last_value (name : string)
    (entries : list (string * FormSubmissions.FormDataEntryValue))
    : option FormSubmissions.FormDataEntryValue :=
  match entries with
  | [] => None
  | (k, v) :: rest =>
      match last_value name rest with
      | Some v' => Some v'
      | None => if String.eqb k name then Some v else None
      end
  end.

(** A name is that of a password input somewhere in the document. *)
Definition password_name (document : FormSubmissions.Document) (name : string) : Prop :=
  exists input, In input (FormSubmissions.inputs document)
                /\ FormSubmissions.is_password input = true
                /\ FormSubmissions.name input = name.

(** How often the URL changes along a run of polls, from the last recorded
    one on. *)
Fixpoint url_changes (last : string) (urls : list string) : nat :=
  match urls with
  | [] => 0
  | u :: rest => (if String.eqb u last then 0 else 1) + url_changes u rest
  end.

(** The name of an entry is one of the names the handler deletes. *)
Definition deleted (passwordInputs : list FormSubmissions.HTMLInputElement) (k : string) : bool :=
  existsb (fun input => String.eqb k (FormSubmissions.name input)) passwordInputs.



End Spec.

(** * Rounds of effects, taken apart

    Definitions the proofs about the renders of [FlowProvider] are stated
    with. *)

Module Rounds.
Import FlowProvider.

(** Two states hold the same records. *)
Definition same_records (s n : State) : Prop :=
  ClickPosition n = ClickPosition s /\ MousePosition n = MousePosition s
  /\ form n = form s /\ ScrollPosition n = ScrollPosition s.

(** The effects that come before the forwarding effect. *)
Definition before_forward (changed : list Dep) (s : State) : Commit :=
  let k := mkCommit s [] [] in
  let k := if depends [uid_] changed then effect_uid s k else k in
  let k := if depends [access_key_] changed then effect_socket s k else k in
  let k := if depends [pageDetails_] changed then effect_page s k else k in
  let k := if depends [pageDetails_] changed then effect_page s k else k in
  let k := if depends [connectStatus_; userId_] changed then effect_getData s k else k in
  k.

Definition forward_deps : list Dep :=
  [ClickPosition_; MousePosition_; pageDetails_; form_; ScrollPosition_].

Definition snocs {A : Type} (l xs : list A) : list A :=
  fold_left (fun acc x => acc ++ [x])%list xs l.

(** What the effects leave alone. *)
Definition same_session (s n : State) : Prop :=
  connectStatus n = connectStatus s
  /\ recordingTypes n = recordingTypes s
  /\ recordingsId n = recordingsId s
  /\ pageDetails n = pageDetails s
  /\ uid n = uid s
  /\ (socketRef s = true -> socketRef n = true).

End Rounds.

(** * A page to run the code on *)

Module Page.
Import DOM.
Local Open Scope float_scope.

Definition html : HTMLElement := mkHTMLElement "HTML" None ∅ None.
Definition body : HTMLElement := mkHTMLElement "BODY" None ∅ (Some html).

(** [<div data-clickable="true">] *)
Definition card : HTMLElement :=
  mkHTMLElement "DIV" None {[ "data-clickable" := "true" ]} (Some body).

(** [<button data-readable="Buy">] inside the card *)
Definition buy : HTMLElement :=
  mkHTMLElement "BUTTON" None {[ "data-readable" := "Buy" ]} (Some card).

(** [<div data-clickable>]: the attribute is there, its value is empty. *)
Definition badge : HTMLElement :=
  mkHTMLElement "DIV" None {[ "data-clickable" := "" ]} (Some body).


Definition window : Window :=
  {| innerWidth := 1280; innerHeight := 720; scrollX := 0; scrollY := 340;
     href := "https://shop.example/cart"; title := "Cart";
     getTime := 1700000000000 |}.

(** A moment later, on another page. *)
Definition moved : Window :=
  {| innerWidth := 1280; innerHeight := 720; scrollX := 0; scrollY := 0;
     href := "https://shop.example/pay"; title := "Pay";
     getTime := 1700000001000 |}.

Definition container : DOMRect :=
  {| left := 8; top := 64.5; width := 1264; height := 2000 |}.

Definition pointer (target : HTMLElement) : MouseEvent :=
  {| target := target; button := 0; pageX := 108.25; pageY := 400 |}.

(** A sign-in form with a password, and a form that asks for a PIN in a text
    field; elsewhere on the page a password input is named [pin] too. *)
Definition user_field : FormSubmissions.HTMLInputElement :=
  FormSubmissions.mkInput "user" "text" (FormSubmissions.text "ada") false.
Definition secret_field : FormSubmissions.HTMLInputElement :=
  FormSubmissions.mkInput "secret" "password" (FormSubmissions.text "hunter2") false.
Definition pin_text_field : FormSubmissions.HTMLInputElement :=
  FormSubmissions.mkInput "pin" "text" (FormSubmissions.text "1234") false.
Definition pin_password_field : FormSubmissions.HTMLInputElement :=
  FormSubmissions.mkInput "pin" "password" (FormSubmissions.text "") false.

Definition pin_form : FormSubmissions.HTMLFormElement :=
  FormSubmissions.mkForm [user_field; pin_text_field].

Definition document : FormSubmissions.Document :=
  FormSubmissions.mkDocument
    [user_field; secret_field; user_field; pin_text_field; pin_password_field].

Definition browser : FlowProvider.Browser :=
  FlowProvider.mkBrowser window document (Some container).

(** The mounted component, before and after the socket connects and the
    server enables clicks and forms under session 7. *)
Definition mounted : FlowProvider.State :=
  FlowProvider.next (FlowProvider.mount window "u1").

Definition directive : FlowProvider.RecordingDirective :=
  FlowProvider.mkDirective ["clicks"; "forms"] (FlowProvider.object 7%float).

Definition recording_offline : FlowProvider.State :=
  fst (FlowProvider.run mounted
         [(browser, FlowProvider.connect);
          (browser, FlowProvider.GetRecordingInstructions directive);
          (browser, FlowProvider.disconnect)]).

Definition recording : FlowProvider.State :=
  fst (FlowProvider.run mounted
         [(browser, FlowProvider.connect);
          (browser, FlowProvider.GetRecordingInstructions directive)]).

End Page.

(** * Properties *)

(** ** Strings and numbers *)

Section Strings.
Import DOM.

Lemma toLowerCase_app (a b : string) :
  toLowerCase (a ++ b) = toLowerCase a ++ toLowerCase b.
Proof.
  induction a as [|c a IH]; simpl; [reflexivity|]. now rewrite IH.
Qed.

Lemma toLowerCase_join (sep : string) (l : list string) :
  toLowerCase (join sep l) = join (toLowerCase sep) (map toLowerCase l).
Proof.
  unfold join. induction l as [|x [|y l] IH]; simpl; try reflexivity.
  rewrite !toLowerCase_app. f_equal. f_equal. exact IH.
Qed.

Lemma app_empty_inv (a b : string) : a ++ b = "" -> a = "" /\ b = "".
Proof. destruct a; simpl; [auto | discriminate]. Qed.

Lemma toLowerCase_empty_inv (s : string) : toLowerCase s = "" -> s = "".
Proof. destruct s; simpl; [auto | discriminate]. Qed.

(** On a binary64 value, subtracting zero changes nothing: not an
    infinity, not a NaN, not the sign of a zero. *)
Lemma sub_zero (x : number) : (x - 0)%float = x.
Proof.
  apply Prim2SF_inj. rewrite sub_spec.
  change (Prim2SF 0) with (S754_zero false).
  unfold SF64sub, SFsub.
  destruct (Prim2SF x) as [[|]| | |]; reflexivity.
Qed.

End Strings.

(** ** Elements and their ancestors *)

Section Elements.
Import DOM Spec.

(** Induction along the [parentElement] links. *)
Lemma HTMLElement_parent_ind (P : HTMLElement -> Prop) :
  (forall t o a, P (mkHTMLElement t o a None)) ->
  (forall t o a p, P p -> P (mkHTMLElement t o a (Some p))) ->
  forall el, P el.
Proof.
  intros Hroot Hchild. fix IH 1. intros [t o a [p|]].
  - apply Hchild, IH.
  - apply Hroot.
Qed.

Lemma Clicks_walk_path (el : HTMLElement) (acc : list HTMLElement) :
  Clicks.walk el acc = (path_from_root el ++ acc)%list.
Proof.
  revert acc. induction el as [t o a|t o a p IH] using HTMLElement_parent_ind;
    intros acc; simpl; [reflexivity|].
  rewrite IH, <- app_assoc. reflexivity.
Qed.

Lemma MouseMoves_walk_path (el : HTMLElement) (acc : list HTMLElement) :
  MouseMoves.walk el acc = (path_from_root el ++ acc)%list.
Proof.
  revert acc. induction el as [t o a|t o a p IH] using HTMLElement_parent_ind;
    intros acc; simpl; [reflexivity|].
  rewrite IH, <- app_assoc. reflexivity.
Qed.

Lemma path_from_root_last (el : HTMLElement) :
  exists front, path_from_root el = (front ++ [el])%list.
Proof.
  destruct el as [t o a [p|]]; simpl.
  - now exists (path_from_root p).
  - now exists [].
Qed.

Lemma join_snoc_empty_inv (sep : string) (l : list string) (x : string) :
  join sep (l ++ [x])%list = "" -> x = "".
Proof.
  unfold join. induction l as [|y [|z l] IH]; simpl.
  - auto.
  - intros H. apply app_empty_inv in H as [_ H]. now apply app_empty_inv in H as [_ H].
  - intros H. apply app_empty_inv in H as [_ H]. apply app_empty_inv in H as [_ H].
    now apply IH.
Qed.

(** An element with a name has a path that is not the empty string. *)
Lemma ancestor_path_nonempty (el : HTMLElement) :
  tagName el <> "" -> ancestor_path el <> "".
Proof.
  intros Hne Hp. apply Hne. unfold ancestor_path in Hp.
  destruct (path_from_root_last el) as [front Hfront].
  rewrite Hfront, map_app in Hp. simpl in Hp.
  apply join_snoc_empty_inv in Hp. now apply toLowerCase_empty_inv.
Qed.

Lemma treeAsString_path (el : HTMLElement) :
  toLowerCase (join " > " (map tagName (path_from_root el))) = ancestor_path el.
Proof.
  unfold ancestor_path. rewrite toLowerCase_join, map_map. reflexivity.
Qed.

End Elements.

(** ** The classifier *)

Section Classifier.
Import DOM Spec.








Lemma isClickable_agree (target : HTMLElement) :
  MouseMoves.isClickable_ target = Clicks.isClickable_ target.
Proof. reflexivity. Qed.

(** The record of a click, field by field. *)
Lemma handleMouseClick_allowed (ref : option DOMRect) (w : Window) (e : MouseEvent) :
  exists c,
    Clicks.handleMouseClick ref true w e = Some c
    /\ Clicks.pageX c = (pageX e - nullish (option_map left ref) 0)%float
    /\ Clicks.pageY c = (pageY e - nullish (option_map top ref) 0)%float
    /\ Clicks.windowWidth c = innerWidth w
    /\ Clicks.windowHeight c = innerHeight w
    /\ Clicks.timestamp c = getTime w
    /\ Clicks.isClickable c = Clicks.isClickable_ (target e)
    /\ Clicks.clickableElement c
       = (if Clicks.isClickable_ (target e) then Some (toLowerCase (tagName (target e))) else None)
    /\ Clicks.tree c
       = (if Clicks.isClickable_ (target e)
          then Clicks.treeAsString (path_from_root (target e)) else None)
    /\ Clicks.type c = "click"
    /\ Clicks.context c = getAttribute (target e) "data-readable".
Proof.
  unfold Clicks.handleMouseClick. simpl negb. cbv iota.
  destruct (Clicks.isClickable_ (target e)) eqn:Hc; eexists; split; try reflexivity;
    simpl; rewrite ?Hc, ?Clicks_walk_path, ?app_nil_r; repeat split; reflexivity.
Qed.

(** The record of a move, field by field. *)
Lemma handleMouseMove_allowed (ref : option DOMRect) (w : Window) (e : MouseEvent) :
  exists m,
    MouseMoves.handleMouseMove ref true w e = Some m
    /\ MouseMoves.pageX m = (pageX e - nullish (option_map left ref) 0)%float
    /\ MouseMoves.pageY m = (pageY e - nullish (option_map top ref) 0)%float
    /\ MouseMoves.windowWidth m = innerWidth w
    /\ MouseMoves.windowHeight m = innerHeight w
    /\ MouseMoves.timestamp m = getTime w
    /\ MouseMoves.isClickable m = MouseMoves.isClickable_ (target e)
    /\ MouseMoves.clickableElement m
       = (if MouseMoves.isClickable_ (target e)
          then Some (toLowerCase (tagName (target e))) else None)
    /\ MouseMoves.tree m
       = (if MouseMoves.isClickable_ (target e)
          then MouseMoves.treeAsString (path_from_root (target e)) else None)
    /\ MouseMoves.type m = "move"
    /\ MouseMoves.context m = getAttribute (target e) "data-readable".
Proof.
  unfold MouseMoves.handleMouseMove. simpl negb. cbv iota.
  destruct (MouseMoves.isClickable_ (target e)) eqn:Hc; eexists; split; try reflexivity;
    simpl; rewrite ?Hc, ?MouseMoves_walk_path, ?app_nil_r; repeat split; reflexivity.
Qed.

Lemma Clicks_treeAsString_path (el : HTMLElement) :
  Clicks.treeAsString (path_from_root el)
  = if String.eqb (ancestor_path el) "" then None else Some (ancestor_path el).
Proof. unfold Clicks.treeAsString. cbv zeta. now rewrite treeAsString_path. Qed.

Lemma MouseMoves_treeAsString_path (el : HTMLElement) :
  MouseMoves.treeAsString (path_from_root el)
  = if String.eqb (ancestor_path el) "" then None else Some (ancestor_path el).
Proof. unfold MouseMoves.treeAsString. cbv zeta. now rewrite treeAsString_path. Qed.

End Classifier.

(** ** Clickability, coordinates and the ancestor path *)

Section PointerRecords.
Import DOM Spec.

(** C1, at an element that carries [data-clickable] with an empty value, no
    inline handler and a tag outside the list: the attribute is there, and
    the click and the move record both have [isClickable] false, with no
    [clickableElement] and no [tree]. *)
Theorem C1_empty_data_clickable_is_not_clickable
    (ref : option DOMRect) (w : Window) (button px py : number) :
  let e := mkMouseEvent Page.badge button px py in
  getAttribute (target e) "data-clickable" = Some ""
  /\ onclick (target e) = None
  /\ toLowerCase (tagName (target e)) = "div"
  /\ (exists c, Clicks.handleMouseClick ref true w e = Some c
                /\ Clicks.isClickable c = false
                /\ Clicks.clickableElement c = None
                /\ Clicks.tree c = None)
  /\ (exists m, MouseMoves.handleMouseMove ref true w e = Some m
                /\ MouseMoves.isClickable m = false
                /\ MouseMoves.clickableElement m = None
                /\ MouseMoves.tree m = None).
Proof.
  intros e. repeat split; try reflexivity.
  - eexists. split; [reflexivity|]. repeat split; reflexivity.
  - eexists. split; [reflexivity|]. repeat split; reflexivity.
Qed.

(** C2: for a captured click or move, with a container rectangle at offset
    ([left], [top]) the record has [pageX = e.pageX - left] and
    [pageY = e.pageY - top]; with no rectangle the offsets are zero and the
    record has the coordinates of the event unchanged. *)
Theorem C2_relative_coordinates (w : Window) (e : MouseEvent) :
  (forall rect : DOMRect,
     exists c m,
       Clicks.handleMouseClick (Some rect) true w e = Some c
       /\ MouseMoves.handleMouseMove (Some rect) true w e = Some m
       /\ Clicks.pageX c = (pageX e - left rect)%float
       /\ Clicks.pageY c = (pageY e - top rect)%float
       /\ MouseMoves.pageX m = (pageX e - left rect)%float
       /\ MouseMoves.pageY m = (pageY e - top rect)%float)
  /\ (exists c m,
       Clicks.handleMouseClick None true w e = Some c
       /\ MouseMoves.handleMouseMove None true w e = Some m
       /\ Clicks.pageX c = (pageX e - 0)%float /\ Clicks.pageX c = pageX e
       /\ Clicks.pageY c = (pageY e - 0)%float /\ Clicks.pageY c = pageY e
       /\ MouseMoves.pageX m = (pageX e - 0)%float /\ MouseMoves.pageX m = pageX e
       /\ MouseMoves.pageY m = (pageY e - 0)%float /\ MouseMoves.pageY m = pageY e).
Proof.
  split; [intros rect|].
  - destruct (handleMouseClick_allowed (Some rect) w e) as (c & Hc & Hx & Hy & _).
    destruct (handleMouseMove_allowed (Some rect) w e) as (m & Hm & Hx' & Hy' & _).
    exists c, m. repeat split; assumption.
  - destruct (handleMouseClick_allowed None w e) as (c & Hc & Hx & Hy & _).
    destruct (handleMouseMove_allowed None w e) as (m & Hm & Hx' & Hy' & _).
    simpl in Hx, Hy, Hx', Hy'.
    exists c, m. repeat split; try assumption;
      rewrite <- (sub_zero (pageX e)) || rewrite <- (sub_zero (pageY e)); assumption.
Qed.


End PointerRecords.


(** ** The move record against the click record *)

Section MoveAgainstClick.
Import DOM Spec.

(** C9: for the same event, container rectangle, window and clock, the move
    record has the value of the click record in every shared field ([pageX],
    [pageY], [windowWidth], [windowHeight], [timestamp], [isClickable],
    [clickableElement], [tree], [context]); the discriminators are "click"
    and "move"; the click record has a [clickType] and the move record has no
    such field, and no field beyond the shared ones and [type]. *)
Theorem C9_move_record_matches_click_record
    (ref : option DOMRect) (w : Window) (e : MouseEvent) :
  exists c m,
    Clicks.handleMouseClick ref true w e = Some c
    /\ MouseMoves.handleMouseMove ref true w e = Some m
    /\ MouseMoves.pageX m = Clicks.pageX c
    /\ MouseMoves.pageY m = Clicks.pageY c
    /\ MouseMoves.windowWidth m = Clicks.windowWidth c
    /\ MouseMoves.windowHeight m = Clicks.windowHeight c
    /\ MouseMoves.timestamp m = Clicks.timestamp c
    /\ MouseMoves.isClickable m = Clicks.isClickable c
    /\ MouseMoves.clickableElement m = Clicks.clickableElement c
    /\ MouseMoves.tree m = Clicks.tree c
    /\ MouseMoves.context m = Clicks.context c
    /\ Clicks.type c = "click"
    /\ MouseMoves.type m = "move"
    /\ Forall (fun k => move_properties m !! k = click_properties c !! k) shared_fields
    /\ is_Some (click_properties c !! "clickType")
    /\ move_properties m !! "clickType" = None
    /\ dom (move_properties m) = list_to_set ("type" :: shared_fields)
    /\ dom (click_properties c) = list_to_set ("clickType" :: "type" :: shared_fields).
Proof.
  destruct (handleMouseClick_allowed ref w e)
    as (c & Hc & Hx & Hy & Hww & Hwh & Hts & Hic & Hce & Htc & Hty & Hcx).
  destruct (handleMouseMove_allowed ref w e)
    as (m & Hm & Hx' & Hy' & Hww' & Hwh' & Hts' & Him & Hme & Htm & Hty' & Hcx').
  rewrite isClickable_agree in Him, Hme, Htm.
  assert (Htree : MouseMoves.tree m = Clicks.tree c).
  { rewrite Htm, Htc. destruct (Clicks.isClickable_ _); reflexivity. }
  exists c, m.
  split; [exact Hc|]. split; [exact Hm|].
  split; [congruence|]. split; [congruence|]. split; [congruence|].
  split; [congruence|]. split; [congruence|]. split; [congruence|].
  split; [congruence|]. split; [exact Htree|]. split; [congruence|].
  split; [exact Hty|]. split; [exact Hty'|].
  assert (E : MouseMoves.pageX m = Clicks.pageX c
              /\ MouseMoves.pageY m = Clicks.pageY c
              /\ MouseMoves.windowWidth m = Clicks.windowWidth c
              /\ MouseMoves.windowHeight m = Clicks.windowHeight c
              /\ MouseMoves.timestamp m = Clicks.timestamp c
              /\ MouseMoves.isClickable m = Clicks.isClickable c
              /\ MouseMoves.clickableElement m = Clicks.clickableElement c
              /\ MouseMoves.tree m = Clicks.tree c
              /\ MouseMoves.context m = Clicks.context c)
    by (repeat split; congruence).
  clear - E. destruct c, m. simpl in E.
  destruct E as (-> & -> & -> & -> & -> & -> & -> & -> & ->).
  split.
  { unfold shared_fields.
    repeat (apply Forall_cons; split); try apply Forall_nil; vm_compute; reflexivity. }
  split; [eexists; vm_compute; reflexivity|].
  split; [vm_compute; reflexivity|].
  split; vm_compute; reflexivity.
Qed.

End MoveAgainstClick.

(** ** Renders and effects of the coordinator *)

Section Effects.
Import DOM Spec FlowProvider Rounds.

Lemma commit_nil (fuel : nat) (s : State) : commit fuel [] s = mkCommit s [] [].
Proof. destruct fuel; reflexivity. Qed.

Lemma run_effects_split (changed : list Dep) (s : State) :
  run_effects changed s
  = if depends forward_deps changed
    then effect_forward s (before_forward changed s)
    else before_forward changed s.
Proof. reflexivity. Qed.

(** What those effects come to: the user id follows the prop, the socket is
    stored, and while connected the page details go out twice and the
    directive is asked for. *)
Lemma before_forward_closed (changed : list Dep) (s : State) :
  before_forward changed s
  = let socket := socketRef s || depends [access_key_] changed in
    mkCommit
      (set_socketRef socket
         (set_userId (if depends [uid_] changed then uid s else userId s) s))
      (if depends [uid_] changed && negb (String.eqb (uid s) (userId s))
       then [userId_] else [])
      (if connectStatus s && socket
       then ((if depends [pageDetails_] changed
              then [events_page (pageDetails s) (recordingsId s);
                    events_page (pageDetails s) (recordingsId s)]
              else [])
             ++ (if depends [connectStatus_; userId_] changed
                 then [getData (userId s)] else []))%list
       else []).
Proof.
  unfold before_forward.
  generalize (depends [uid_] changed), (depends [access_key_] changed),
    (depends [pageDetails_] changed), (depends [connectStatus_; userId_] changed).
  intros b1 b2 b3 b4. destruct s as [u cs us rt ri sr cp mp fm sp pd].
  unfold effect_uid, effect_socket, effect_page, effect_getData, setUserId, emit.
  destruct b1; cbn [uid userId next negb andb orb];
    [destruct (String.eqb_spec u us) as [->|Hne]|];
    destruct b2, b3, b4, cs, sr; reflexivity.
Qed.

Lemma snocs_app {A : Type} (l xs : list A) : snocs l xs = (l ++ xs)%list.
Proof.
  unfold snocs. revert l. induction xs as [|x xs IH]; intros l; simpl.
  - now rewrite app_nil_r.
  - rewrite IH, <- app_assoc. reflexivity.
Qed.

(** What the forwarding effect comes to when the state it sets is the state
    it sees, as far as the records go: a drain while connected, nothing
    otherwise. *)
Lemma effect_forward_closed (s : State) (k : Commit) :
  same_records s (next k) ->
  effect_forward s k
  = if connectStatus s && socketRef (next k)
    then mkCommit (drained (next k)) (dirty k ++ pending_deps s) (emitted k ++ forwarded s)
    else k.
Proof.
  rewrite <- !snocs_app.
  destruct k as [n d em].
  destruct s as [u cs us rt ri sr cp mp fm sp pd], n as [u' cs' us' rt' ri' sr' cp' mp' fm' sp' pd'].
  unfold same_records. cbn [next ClickPosition MousePosition form ScrollPosition].
  intros (-> & -> & -> & ->).
  destruct cs, sr'; destruct cp, mp, fm, sp; reflexivity.
Qed.

Lemma before_forward_same_records (changed : list Dep) (s : State) :
  same_records s (next (before_forward changed s)).
Proof. rewrite before_forward_closed. destruct s. repeat split. Qed.

(** One round of effects, in closed form. *)
Lemma run_effects_closed (changed : list Dep) (s : State) :
  run_effects changed s
  = let k := before_forward changed s in
    if depends forward_deps changed && (connectStatus s && socketRef (next k))
    then mkCommit (drained (next k)) (dirty k ++ pending_deps s) (emitted k ++ forwarded s)
    else k.
Proof.
  rewrite run_effects_split. cbv zeta.
  destruct (depends forward_deps changed); [|reflexivity].
  apply effect_forward_closed, before_forward_same_records.
Qed.

Lemma depends_app (deps a b : list Dep) :
  depends deps (a ++ b) = depends deps a || depends deps b.
Proof.
  unfold depends. induction deps as [|d deps IH]; simpl; [reflexivity|].
  rewrite IH, existsb_app.
  destruct (existsb (Dep_eqb d) a), (existsb (Dep_eqb d) b),
    (existsb (fun d0 => existsb (Dep_eqb d0) a) deps),
    (existsb (fun d0 => existsb (Dep_eqb d0) b) deps); reflexivity.
Qed.

Lemma pending_deps_drained (s : State) : pending_deps (drained s) = [].
Proof.
  destruct s as [u cs us rt ri sr cp mp fm sp pd]. destruct cp, mp, fm, sp; reflexivity.
Qed.

Lemma pending_drained (c : Category) (s : State) : pending c (drained s) = None.
Proof.
  destruct s as [u cs us rt ri sr cp mp fm sp pd]. destruct c, cp, mp, fm, sp; reflexivity.
Qed.

(** The records name no dependency but their own. *)
Lemma pending_deps_only_records (s : State) :
  depends [uid_] (pending_deps s) = false
  /\ depends [access_key_] (pending_deps s) = false
  /\ depends [pageDetails_] (pending_deps s) = false
  /\ depends [connectStatus_; userId_] (pending_deps s) = false.
Proof.
  destruct s as [u cs us rt ri sr cp mp fm sp pd].
  destruct cp, mp, fm, sp; repeat split; reflexivity.
Qed.

Lemma dirty_before_forward (changed : list Dep) (s : State) :
  dirty (before_forward changed s) = [] \/ dirty (before_forward changed s) = [userId_].
Proof.
  rewrite before_forward_closed. cbn [dirty].
  destruct (_ && _); [right | left]; reflexivity.
Qed.

Lemma dirty_run_effects (changed : list Dep) (s : State) :
  dirty (run_effects changed s)
  = ((if depends [uid_] changed && negb (String.eqb (uid s) (userId s))
      then [userId_] else [])
     ++ (if depends forward_deps changed
            && (connectStatus s && socketRef (next (before_forward changed s)))
         then pending_deps s else []))%list.
Proof.
  rewrite run_effects_closed. cbv zeta.
  destruct (depends forward_deps changed && _); cbn [dirty];
    rewrite before_forward_closed; cbn [dirty]; [reflexivity | now rewrite app_nil_r].
Qed.

(** After a round of effects, a second round sets no state. *)
Lemma run_effects_twice (changed : list Dep) (s : State) :
  let k := run_effects changed s in
  dirty (run_effects (dirty k) (next k)) = [].
Proof.
  cbv zeta. rewrite (dirty_run_effects (dirty _)).
  rewrite (dirty_run_effects changed s).
  destruct (pending_deps_only_records s) as (Hu & _).
  assert (Huid : forall b : bool,
             depends [uid_] ((if b then [userId_] else []) ++ pending_deps s)%list = false).
  { intros b. rewrite depends_app, Hu. now destruct b. }
  destruct (depends forward_deps changed && _) eqn:Hf.
  - rewrite Huid. cbn [andb app].
    rewrite run_effects_closed. cbv zeta. rewrite Hf. cbn [next].
    rewrite pending_deps_drained.
    match goal with |- (if ?c then _ else _) = _ => destruct c end; reflexivity.
  - destruct (depends [uid_] changed && _); reflexivity.
Qed.

(** A round of effects, and one more for the state it set, and the renders
    are over: no state is set that a further effect would answer. *)
Lemma commit_settles (changed : list Dep) (s : State) :
  dirty (commit 2 changed s) = [].
Proof.
  destruct changed as [|d changed]; [reflexivity|].
  cbn [commit dirty].
  destruct (dirty (run_effects (d :: changed) s)) eqn:Hd; [reflexivity|].
  cbn [dirty]. rewrite <- Hd. apply run_effects_twice.
Qed.

(** More renders change nothing. *)
Lemma commit_fuel (fuel : nat) (changed : list Dep) (s : State) :
  commit (S (S fuel)) changed s = commit 2 changed s.
Proof.
  destruct changed as [|d changed]; [reflexivity|].
  cbn [commit].
  destruct (dirty (run_effects (d :: changed) s)) eqn:Hd; [reflexivity|].
  rewrite <- Hd.
  pose proof (run_effects_twice (d :: changed) s) as H2. cbv zeta in H2.
  rewrite H2, commit_nil. reflexivity.
Qed.

Lemma same_session_refl (s : State) : same_session s s.
Proof. repeat split; auto. Qed.

Lemma same_session_trans (a b c : State) :
  same_session a b -> same_session b c -> same_session a c.
Proof.
  unfold same_session. intros (? & ? & ? & ? & ? & ?) (? & ? & ? & ? & ? & ?).
  repeat split; try congruence. auto.
Qed.

Lemma run_effects_session (changed : list Dep) (s : State) :
  same_session s (next (run_effects changed s)).
Proof.
  rewrite run_effects_closed, before_forward_closed. cbv zeta.
  destruct s as [u cs us rt ri sr cp mp fm sp pd].
  destruct (depends forward_deps changed && _); cbn; repeat split;
    intros Hs; cbn in Hs; subst sr; reflexivity.
Qed.

Lemma commit_session (fuel : nat) (changed : list Dep) (s : State) :
  same_session s (next (commit fuel changed s)).
Proof.
  revert changed s. induction fuel as [|fuel IH]; intros changed s.
  - apply same_session_refl.
  - destruct changed as [|d changed]; [apply same_session_refl|].
    cbn [commit next].
    eapply same_session_trans; [apply run_effects_session | apply IH].
Qed.

(** The renders that follow a change of one record: a drain while connected,
    nothing otherwise. *)
Lemma commit_record (c : Category) (s : State) :
  commit 2 [dep_of c] s
  = if connectStatus s && socketRef s
    then mkCommit (drained s) [] (forwarded s)
    else mkCommit s [] [].
Proof.
  destruct s as [u cs us rt ri sr cp mp fm sp pd].
  destruct c, cs, sr, cp, mp, fm, sp; reflexivity.
Qed.

Lemma forwarded_In (c : Category) (s : State) (r : Event) :
  pending c s = Some r ->
  In (events r (recordingsId s) (pageDetails s)) (forwarded s).
Proof.
  intros Hp. unfold forwarded.
  apply (in_map (fun r => events r (recordingsId s) (pageDetails s))).
  unfold pending_records.
  apply in_flat_map. exists c. split.
  - destruct c; simpl; auto.
  - rewrite Hp. now left.
Qed.

(** A pending record stays, or it is forwarded: no round of effects loses
    it. *)
Lemma run_effects_keeps (c : Category) (r : Event) (changed : list Dep) (s : State) :
  pending c s = Some r ->
  pending c (next (run_effects changed s)) = Some r
  \/ In (events r (recordingsId s) (pageDetails s)) (emitted (run_effects changed s)).
Proof.
  intros Hp. rewrite run_effects_closed. cbv zeta.
  destruct (depends forward_deps changed && _).
  - right. cbn [emitted]. apply in_or_app. right. now apply forwarded_In with c.
  - left. destruct (before_forward_same_records changed s) as (Hc & Hm & Hf & Hs).
    rewrite <- Hp. destruct c; unfold pending; now rewrite ?Hc, ?Hm, ?Hf, ?Hs.
Qed.

Lemma commit_keeps (c : Category) (r : Event) (fuel : nat) (changed : list Dep) (s : State) :
  pending c s = Some r ->
  pending c (next (commit fuel changed s)) = Some r
  \/ In (events r (recordingsId s) (pageDetails s)) (emitted (commit fuel changed s)).
Proof.
  revert changed s. induction fuel as [|fuel IH]; intros changed s Hp; [now left|].
  destruct changed as [|d changed]; [now left|].
  cbn [commit next emitted].
  destruct (run_effects_keeps c r (d :: changed) s Hp) as [Hk|Hk].
  - destruct (IH (dirty (run_effects (d :: changed) s)) _ Hk) as [H|H]; [now left|].
    right. apply in_or_app. right.
    destruct (run_effects_session (d :: changed) s) as (_ & _ & Hri & Hpd & _).
    now rewrite <- Hri, <- Hpd.
  - right. apply in_or_app. now left.
Qed.

(** *** Inputs *)

Lemma captured_disabled (b : Browser) (s : State) (i : Input) (c : Category) :
  category_of i = Some c -> is_enabled c s = false -> captured b s i = None.
Proof.
  destruct i; intros [= <-] He; unfold captured; rewrite He; reflexivity.
Qed.

(** Every event of an enabled category gives a record: there is no throttle. *)
Lemma captured_enabled (b : Browser) (s : State) (i : Input) (c : Category) :
  category_of i = Some c -> is_enabled c s = true -> is_Some (captured b s i).
Proof.
  destruct i; intros [= <-] He; unfold captured; rewrite He.
  - destruct (handleMouseClick_allowed (childRef b) (window b) e) as (r & -> & _). now eexists.
  - destruct (handleMouseMove_allowed (childRef b) (window b) e) as (r & -> & _). now eexists.
  - now eexists.
  - now eexists.
Qed.

Lemma handle_not_captured (b : Browser) (s : State) (i : Input) (c : Category) :
  category_of i = Some c -> captured b s i = None -> handle b s i = (s, []).
Proof.
  destruct i; intros [= <-]; unfold captured, handle, is_enabled, category_name;
    match goal with |- option_map _ ?h = None -> _ => destruct h end;
    intros [=]; reflexivity.
Qed.

Lemma handle_captured (b : Browser) (s : State) (i : Input) (c : Category) (r : Event) :
  category_of i = Some c -> captured b s i = Some r ->
  exists s', handle b s i = (s', [dep_of c])
             /\ pending c s' = Some r
             /\ connectStatus s' = connectStatus s
             /\ socketRef s' = socketRef s
             /\ recordingsId s' = recordingsId s
             /\ pageDetails s' = pageDetails s.
Proof.
  destruct i; intros [= <-]; unfold captured, handle, is_enabled, category_name;
    match goal with |- option_map _ ?h = Some _ -> _ => destruct h end;
    intros [= <-]; eexists; repeat split.
Qed.

(** An input leaves a pending record alone unless it is a capture of the
    same category. *)
Lemma handle_keeps (b : Browser) (s : State) (i : Input) (c : Category) (r : Event) :
  pending c s = Some r ->
  pending c (fst (handle b s i)) = Some r
  \/ (category_of i = Some c /\ is_Some (captured b s i)).
Proof.
  intros Hp.
  destruct i; unfold handle, captured, is_enabled, category_name, setConnectStatus;
    try match goal with
        | |- context [match ?h with Some _ => _ | None => _ end] => destruct h
        | |- context [if ?h then _ else _] => destruct h
        end;
    try (left; exact Hp);
    destruct c; try (left; exact Hp); right; split; try reflexivity; now eexists.
Qed.

Lemma handle_socketRef (b : Browser) (s : State) (i : Input) :
  socketRef (fst (handle b s i)) = socketRef s
  /\ (is_Some (pageDetails s) -> is_Some (pageDetails (fst (handle b s i)))).
Proof.
  destruct i; unfold handle, setConnectStatus;
    try match goal with
        | |- context [match ?h with Some _ => _ | None => _ end] => destruct h
        | |- context [if ?h then _ else _] => destruct h
        end;
    split; auto; intros _; now eexists.
Qed.

(** The first render leaves the socket stored and emits nothing. *)
Lemma mount_closed (w : Window) (u : string) :
  mount w u = mkCommit (set_socketRef true (initial w u)) [] [].
Proof.
  unfold mount. cbn [commit].
  rewrite run_effects_closed, before_forward_closed. cbv zeta.
  cbn. rewrite String.eqb_refl. reflexivity.
Qed.

(** In every state the mounted component reaches, the socket is stored and
    the page record is there. *)
Lemma reachable_invariant (s : State) :
  reachable s -> socketRef s = true /\ is_Some (pageDetails s).
Proof.
  intros (w & u & inputs & ->). rewrite mount_closed. cbn [next].
  assert (H0 : socketRef (set_socketRef true (initial w u)) = true
               /\ is_Some (pageDetails (set_socketRef true (initial w u))))
    by (split; [reflexivity | now eexists]).
  revert H0. generalize (set_socketRef true (initial w u)). clear w u.
  induction inputs as [|[b i] inputs IH]; intros s [Hs Hp]; [now split|].
  cbn [run].
  destruct (run (next (step b s i)) inputs) as [s' out] eqn:Hrun.
  cbn [fst]. change s' with (fst (s', out)). rewrite <- Hrun. apply IH.
  unfold step. destruct (handle b s i) as [s1 ch] eqn:Hh.
  destruct (handle_socketRef b s i) as [Hs1 Hp1]. rewrite Hh in Hs1, Hp1. cbn [fst] in Hs1, Hp1.
  destruct (commit_session 2 ch s1) as (_ & _ & _ & Hpd & _ & Hsr).
  split; [apply Hsr; congruence | rewrite Hpd; auto].
Qed.

End Effects.

(** ** Gating and delivery *)

Section Coordinator.
Import DOM Spec FlowProvider Rounds.

(** C4: a DOM event that arrives at an observer whose category is not in
    the enabled set constructs no record, leaves the whole state as it was,
    sets no state for a further render and emits no message; and so does
    each handler by itself when its [allowRecord] is false (a submission
    then keeps its default action). *)
Theorem C4_disabled_category_is_a_noop
    (b : Browser) (s : State) (i : Input) (c : Category) :
  category_of i = Some c ->
  is_enabled c s = false ->
  captured b s i = None
  /\ handle b s i = (s, [])
  /\ step b s i = mkCommit s [] []
  /\ (forall ref w e, Clicks.handleMouseClick ref false w e = None)
  /\ (forall ref w e, MouseMoves.handleMouseMove ref false w e = None)
  /\ (forall w, Scrolls.handleMouseScroll false w = None)
  /\ (forall d e, FormSubmissions.handleFormSubmissions false d e
                  = FormSubmissions.mkHandled false None).
Proof.
  intros Hc He.
  pose proof (captured_disabled b s i c Hc He) as Hn.
  pose proof (handle_not_captured b s i c Hc Hn) as Hh.
  repeat split; try assumption.
  unfold step. now rewrite Hh.
Qed.

(** C5: when an observer's record changes by a capture, the message with
    that record (and the session id and page details) is emitted if and only
    if the component is connected, and the record is cleaned up if and only if
    it is connected; while not connected nothing is emitted and the record
    stays pending; and whatever comes next, a pending record stays pending
    unless a capture of its own category replaces it or a message forwards
    it. *)
Theorem C5_forwarded_and_cleaned_iff_connected
    (b : Browser) (s : State) (i : Input) (c : Category) (r : Event) :
  socketRef s = true ->
  category_of i = Some c ->
  captured b s i = Some r ->
  let k := step b s i in
  (In (events r (recordingsId s) (pageDetails s)) (emitted k) <-> connectStatus s = true)
  /\ (pending c (next k) = None <-> connectStatus s = true)
  /\ (connectStatus s = false -> emitted k = [] /\ pending c (next k) = Some r)
  /\ dirty k = []
  /\ (forall (b' : Browser) (s0 : State) (i' : Input),
        pending c s0 = Some r ->
        let k' := step b' s0 i' in
        pending c (next k') = Some r
        \/ (category_of i' = Some c /\ is_Some (captured b' s0 i'))
        \/ In (events r (recordingsId (next k')) (pageDetails (next k'))) (emitted k')).
Proof.
  intros Hs Hc Hr k.
  destruct (handle_captured b s i c r Hc Hr) as (s1 & Hh & Hp & Hcs & Hsr & Hri & Hpd).
  assert (Hk : k = if connectStatus s
                   then mkCommit (drained s1) [] (forwarded s1)
                   else mkCommit s1 [] []).
  { unfold k, step. rewrite Hh, commit_record, Hcs, Hsr, Hs. now destruct (connectStatus s). }
  assert (Hin : In (events r (recordingsId s) (pageDetails s)) (forwarded s1)).
  { rewrite <- Hri, <- Hpd. now apply forwarded_In with c. }
  split; [|split; [|split; [|split]]].
  - rewrite Hk. destruct (connectStatus s); cbn [emitted]; split; auto;
      try discriminate; intros [].
  - rewrite Hk. destruct (connectStatus s); cbn [next]; rewrite ?pending_drained, ?Hp;
      split; auto; discriminate.
  - intros Hoff. rewrite Hk, Hoff. now split.
  - unfold k, step. destruct (handle b s i). apply commit_settles.
  - intros b' s0 i' Hp0 k'. unfold k', step.
    destruct (handle_keeps b' s0 i' c r Hp0) as [Hkeep|Hcap]; [|now (right; left)].
    destruct (handle b' s0 i') as [s2 ch]. cbn [fst] in Hkeep.
    destruct (commit_keeps c r 2 ch s2 Hkeep) as [H|H]; [now left|].
    right; right.
    destruct (commit_session 2 ch s2) as (_ & _ & Hri' & Hpd' & _).
    now rewrite Hri', Hpd'.
Qed.

(** C8: a directive passed to the [getData] callback replaces the enabled
    list by its [enabled] and the session id by its [id]; without an [id]
    (or with a null one) the session id becomes absent and the enabled list
    is applied all the same; nothing else changes and nothing is emitted. *)
Theorem C8_directive_replaces_categories_and_session
    (b : Browser) (s : State) (categories : list string) :
  (forall n : number,
     let k := step b s (GetRecordingInstructions (mkDirective categories (object n))) in
     recordingTypes (next k) = categories /\ recordingsId (next k) = Some n)
  /\ (let k := step b s (GetRecordingInstructions (mkDirective categories undefined)) in
      recordingTypes (next k) = categories /\ recordingsId (next k) = None)
  /\ (let k := step b s (GetRecordingInstructions (mkDirective categories null)) in
      recordingTypes (next k) = categories /\ recordingsId (next k) = None)
  /\ (forall data : RecordingDirective,
        let k := step b s (GetRecordingInstructions data) in
        recordingTypes (next k) = enabled data
        /\ emitted k = [] /\ dirty k = []
        /\ connectStatus (next k) = connectStatus s
        /\ userId (next k) = userId s
        /\ pageDetails (next k) = pageDetails s
        /\ Forall (fun c => pending c (next k) = pending c s) Spec.categories
        /\ Forall (fun c => is_enabled c (next k) = includes (enabled data) (category_name c))
                  Spec.categories).
Proof.
  repeat split; repeat (apply Forall_cons; split); try apply Forall_nil; reflexivity.
Qed.

End Coordinator.

Lemma C4_witness :
  FlowProvider.step Page.browser Page.recording FlowProvider.scroll_event
  = FlowProvider.mkCommit Page.recording [] [].
Proof.
  apply (C4_disabled_category_is_a_noop Page.browser Page.recording
           FlowProvider.scroll_event Spec.scrolls); vm_compute; reflexivity.
Defined.

Lemma C5_witness :
  let k := FlowProvider.step Page.browser Page.recording_offline
             (FlowProvider.mousedown (Page.pointer Page.buy)) in
  FlowProvider.emitted k = []
  /\ exists r, Spec.pending Spec.clicks (FlowProvider.next k) = Some (FlowProvider.click r)
               /\ Clicks.tree r = Some "html > body > div > button".
Proof.
  intros k.
  destruct (Spec.captured Page.browser Page.recording_offline
              (FlowProvider.mousedown (Page.pointer Page.buy))) as [r|] eqn:Hr;
    [|vm_compute in Hr; discriminate].
  destruct (C5_forwarded_and_cleaned_iff_connected Page.browser Page.recording_offline
              (FlowProvider.mousedown (Page.pointer Page.buy)) Spec.clicks r)
    as (_ & _ & Hoff & _); [reflexivity | reflexivity | exact Hr |].
  destruct Hoff as [Hout Hpend]; [reflexivity|].
  split; [exact Hout|].
  vm_compute in Hr. injection Hr as <-.
  eexists. split; [exact Hpend | reflexivity].
Defined.

(** ** The page record *)

Section PageRecord.
Import DOM Spec DetectPageChange.

Lemma interval_same_url (p : PageDetails) (w : Window) :
  interval true (Some p) w = None <-> href w = url p.
Proof.
  unfold interval, callback. cbn [negb].
  destruct (String.eqb_spec (href w) (url p)); cbn [negb]; split; congruence.
Qed.

Lemma interval_new_url (p : PageDetails) (w : Window) :
  href w <> url p ->
  interval true (Some p) w = Some {| url := href w; title := DOM.title w |}.
Proof.
  intros Hne. unfold interval, callback. cbn [negb].
  now destruct (String.eqb_spec (href w) (url p)).
Qed.

(** After a tick the record holds the URL of that tick. *)
Lemma tick_url (p : PageDetails) (w : Window) :
  exists p', tick true (Some p) w = Some p' /\ url p' = href w.
Proof.
  unfold tick. destruct (String.eqb_spec (href w) (url p)) as [He|Hne].
  - apply interval_same_url in He as Hi. rewrite Hi. now exists p.
  - rewrite (interval_new_url p w Hne). now eexists.
Qed.

Lemma tick_is_Some (allow : bool) (pd : option PageDetails) (w : Window) :
  is_Some pd -> is_Some (tick allow pd w).
Proof.
  intros Hp. unfold tick. destruct (interval allow pd w); [now eexists | exact Hp].
Qed.

Lemma run_is_Some (allow : bool) (ticks : list Window) (pd : option PageDetails) :
  is_Some pd -> is_Some (run allow pd ticks).
Proof.
  revert pd. unfold run. induction ticks as [|w ticks IH]; intros pd Hp; [exact Hp|].
  cbn [fold_left]. apply IH, tick_is_Some, Hp.
Qed.

Lemma updates_url_changes (ticks : list Window) (p : PageDetails) :
  updates true (Some p) ticks = url_changes (url p) (map href ticks).
Proof.
  revert p. induction ticks as [|w ticks IH]; intros p; [reflexivity|].
  cbn [updates map url_changes].
  destruct (tick_url p w) as (p' & Ht & Hu). rewrite Ht, IH, Hu. f_equal.
  destruct (String.eqb_spec (href w) (url p)) as [He|Hne].
  - apply interval_same_url in He. now rewrite He.
  - now rewrite (interval_new_url p w Hne).
Qed.

Lemma url_changes_repeat (u : string) (n : nat) : url_changes u (repeat u n) = 0.
Proof.
  induction n as [|n IH]; [reflexivity|]. cbn [repeat url_changes].
  now rewrite String.eqb_refl, IH.
Qed.

(** C7: the page record starts at the current URL and title and is never
    absent, whatever ticks follow; a tick sets it if and only if the URL then
    differs from the recorded one, and then it records the URL and title of
    that tick; the updates of a run of polls are the changes of URL along it,
    so polls at an unchanged URL make no update and polls at one new URL make
    exactly one. *)
Theorem C7_page_record_follows_the_url (w : Window) :
  initial w = Some {| url := href w; title := DOM.title w |}
  /\ (forall allow ticks, is_Some (run allow (initial w) ticks))
  /\ (forall p w', interval true (Some p) w' = None <-> href w' = url p)
  /\ (forall p w', tick true (Some p) w' = Some p <-> href w' = url p)
  /\ (forall p w', href w' <> url p ->
        tick true (Some p) w' = Some {| url := href w'; title := DOM.title w' |})
  /\ (forall p ticks, updates true (Some p) ticks = url_changes (url p) (map href ticks))
  /\ (forall p w' n, href w' = url p ->
        updates true (Some p) (repeat w' n) = 0
        /\ run true (Some p) (repeat w' n) = Some p)
  /\ (forall p w' n, href w' <> url p -> updates true (Some p) (repeat w' (S n)) = 1).
Proof.
  split; [reflexivity|].
  split; [intros allow ticks; apply run_is_Some; now eexists|].
  split; [apply interval_same_url|].
  split.
  { intros p w'. split.
    - intros Ht. destruct (tick_url p w') as (p' & Ht' & Hu). congruence.
    - intros He. unfold tick. apply interval_same_url in He. now rewrite He. }
  split.
  { intros p w' Hne. unfold tick. now rewrite (interval_new_url p w' Hne). }
  split; [intros p ticks; apply updates_url_changes|].
  split.
  - intros p w' n He. split.
    + rewrite updates_url_changes, map_repeat, He. apply url_changes_repeat.
    + unfold run. induction n as [|n IH]; [reflexivity|]. cbn [repeat fold_left].
      unfold tick at 2. apply interval_same_url in He. now rewrite He.
  - intros p w' n Hne. rewrite updates_url_changes, map_repeat.
    cbn [repeat url_changes]. rewrite url_changes_repeat.
    now destruct (String.eqb_spec (href w') (url p)).
Qed.

End PageRecord.

Lemma C7_witness :
  DetectPageChange.updates true (DetectPageChange.initial Page.window)
    [Page.moved; Page.moved; Page.moved] = 1.
Proof.
  destruct (C7_page_record_follows_the_url Page.window) as (_ & _ & _ & _ & _ & _ & _ & Hone).
  apply (Hone _ Page.moved 2). vm_compute. discriminate.
Defined.

(** ** The form record *)

Section FormRecord.
Import DOM Spec FormSubmissions.

Lemma delete_all (passwordInputs : list HTMLInputElement)
    (data : list (string * FormDataEntryValue)) :
  fold_left (fun data input => delete (name input) data) passwordInputs data
  = List.filter (fun entry => negb (deleted passwordInputs (fst entry))) data.
Proof.
  revert data. induction passwordInputs as [|p ps IH]; intros data; cbn [fold_left].
  - unfold deleted. cbn [existsb negb]. induction data as [|x data IHd]; [reflexivity|].
    cbn [List.filter]. now rewrite <- IHd.
  - rewrite IH. unfold delete. clear IH.
    induction data as [|x data IHd]; [reflexivity|].
    cbn [List.filter deleted existsb].
    destruct (String.eqb (fst x) (name p)); cbn [negb orb List.filter].
    + exact IHd.
    + fold (deleted ps (fst x)). destruct (negb (deleted ps (fst x))); now rewrite IHd.
Qed.

Lemma last_value_filter (P : string -> bool) (k : string)
    (data : list (string * FormDataEntryValue)) :
  last_value k (List.filter (fun entry => P (fst entry)) data)
  = if P k then last_value k data else None.
Proof.
  induction data as [|[k' v] data IH]; [now destruct (P k)|].
  cbn [List.filter fst].
  destruct (P k') eqn:HP'; cbn [last_value]; rewrite IH;
    destruct (String.eqb_spec k' k) as [->|Hne];
    try rewrite HP'; destruct (P k); destruct (last_value k data); congruence.
Qed.

(** Assigning the entries in order leaves each name with its last value. *)
Lemma assign_lookup (data : list (string * FormDataEntryValue))
    (newData : gmap string FormDataEntryValue) (k : string) :
  fold_left (fun newData entry => <[fst entry := snd entry]> newData) data newData !! k
  = match last_value k data with
    | Some v => Some v
    | None => newData !! k
    end.
Proof.
  revert newData. induction data as [|[k' v] data IH]; intros newData; [reflexivity|].
  cbn [fold_left fst snd last_value]. rewrite IH.
  destruct (last_value k data); [reflexivity|].
  destruct (String.eqb_spec k' k) as [->|Hne].
  - apply lookup_insert_eq.
  - now apply lookup_insert_ne.
Qed.

Lemma deleted_password_name (document : Document) (k : string) :
  deleted (querySelectorAll_password document) k = true <-> password_name document k.
Proof.
  unfold deleted, querySelectorAll_password, password_name.
  rewrite existsb_exists. split.
  - intros (input & Hin & Hk). apply filter_In in Hin as [Hin Hp].
    apply String.eqb_eq in Hk. now exists input.
  - intros (input & Hin & Hp & Hk). exists input. split.
    + apply filter_In. now split.
    + apply String.eqb_eq. now symmetry.
Qed.

(** The record of a submission, name by name. *)
Lemma handleFormSubmissions_lookup (document : Document) (e : SubmitEvent) :
  exists newData,
    handleFormSubmissions true document e = mkHandled true (Some newData)
    /\ forall k, newData !! k
                 = if deleted (querySelectorAll_password document) k
                   then None
                   else last_value k (FormData (target e)).
Proof.
  eexists. split; [reflexivity|]. intros k.
  rewrite assign_lookup, delete_all, lookup_empty.
  rewrite (last_value_filter (fun k => negb (deleted (querySelectorAll_password document) k))).
  destruct (deleted (querySelectorAll_password document) k); cbn [negb];
    now destruct (last_value k (FormData (target e))).
Qed.

Lemma last_value_In (k : string) (v : FormDataEntryValue)
    (data : list (string * FormDataEntryValue)) :
  last_value k data = Some v -> In (k, v) data.
Proof.
  induction data as [|[k' v'] data IH]; [discriminate|].
  cbn [last_value]. destruct (last_value k data) as [v0|].
  - intros [= ->]. right. now apply IH.
  - destruct (String.eqb_spec k' k) as [->|Hne]; [|discriminate].
    intros [= ->]. now left.
Qed.


Lemma FormData_In (form : HTMLFormElement) (k : string) (v : FormDataEntryValue) :
  In (k, v) (FormData form) <->
  exists el, In el (elements form) /\ disabled el = false /\ name el <> ""
             /\ name el = k /\ value el = v.
Proof.
  unfold FormData. rewrite in_flat_map. split.
  - intros (el & Hin & Hel). exists el.
    destruct (disabled el) eqn:Hd; [destruct Hel|].
    destruct (String.eqb_spec (name el) "") as [He|Hne]; [destruct Hel|].
    cbn [orb] in Hel. destruct Hel as [[= <- <-]|[]]. auto.
  - intros (el & Hin & Hd & Hne & <- & <-). exists el. split; [exact Hin|].
    rewrite Hd. apply String.eqb_neq in Hne. rewrite Hne. now left.
Qed.

(** C10: the handler takes the password inputs of the whole document, so the
    name of any of them, whether or not it stands in the submitted form and
    whatever the form's own field of that name is, is absent from the Form
    Record. *)
Theorem C10_names_of_document_passwords_are_deleted
    (document : Document) (e : SubmitEvent) (input : HTMLInputElement) :
  In input (inputs document) ->
  is_password input = true ->
  exists newData,
    setForm (handleFormSubmissions true document e) = Some newData
    /\ newData !! name input = None.
Proof.
  intros Hin Hp.
  destruct (handleFormSubmissions_lookup document e) as (newData & Hh & Hl).
  exists newData. rewrite Hh. split; [reflexivity|].
  rewrite Hl.
  assert (Hd : deleted (querySelectorAll_password document) (name input) = true).
  { apply deleted_password_name. now exists input. }
  now rewrite Hd.
Qed.


End FormRecord.

Lemma C10_witness :
  exists newData,
    FormSubmissions.setForm
      (FormSubmissions.handleFormSubmissions true Page.document
         (FormSubmissions.mkSubmitEvent Page.pin_form)) = Some newData
    /\ newData !! "pin" = None
    /\ In Page.pin_text_field (FormSubmissions.elements Page.pin_form)
    /\ FormSubmissions.is_password Page.pin_text_field = false.
Proof.
  destruct (C10_names_of_document_passwords_are_deleted Page.document
              (FormSubmissions.mkSubmitEvent Page.pin_form) Page.pin_password_field)
    as (newData & Hset & Hpin).
  - vm_compute. tauto.
  - reflexivity.
  - exists newData. split; [exact Hset|]. split; [exact Hpin|].
    split; [vm_compute; tauto | reflexivity].
Defined.



(** * Further properties of the code *)

(** ** The pointer records *)

Section PointerRecordsMore.
Import DOM Spec.

(** No number is both 0 and 2. *)
Lemma eqb_zero_not_two (x : number) :
  (x =? 0)%float = true -> (x =? 2)%float = false.
Proof.
  rewrite !FloatAxioms.eqb_spec.
  change (Prim2SF 0) with (S754_zero false).
  destruct (Prim2SF x) as [s|s| |s m ex]; intros H;
    try discriminate H; try (destruct s; discriminate H).
  reflexivity.
Qed.

Lemma append_assoc (a b c : string) : (a ++ b) ++ c = a ++ b ++ c.
Proof.
  induction a as [|x a IH]; [reflexivity|].
  change (String x ((a ++ b) ++ c) = String x (a ++ b ++ c)). now rewrite IH.
Qed.

Lemma join_snoc (sep : string) (l : list string) (x : string) :
  l <> [] -> join sep (l ++ [x])%list = join sep l ++ sep ++ x.
Proof.
  unfold join. induction l as [|y [|z l] IH]; intros Hne; [contradiction| |].
  - reflexivity.
  - cbn [app String.concat] in *. rewrite IH by discriminate.
    rewrite !append_assoc. reflexivity.
Qed.

Lemma path_from_root_nonempty (el : HTMLElement) : path_from_root el <> [].
Proof.
  destruct (path_from_root_last el) as [front ->]. now destruct front.
Qed.

(** The path of an element is that of its parent and one more name. *)
Lemma ancestor_path_child (t : string) (o : option EventHandler)
    (a : gmap string string) (p : HTMLElement) :
  ancestor_path (mkHTMLElement t o a (Some p))
  = ancestor_path p ++ " > " ++ toLowerCase t.
Proof.
  unfold ancestor_path. cbn [path_from_root]. rewrite map_app. cbn [map tagName].
  apply join_snoc. intros H. apply map_eq_nil in H. now apply path_from_root_nonempty in H.
Qed.


(** X2: in every click and move record, [clickableElement] is present
    exactly when [isClickable] is true, and a [tree] is present only then. *)
Theorem X2_clickableElement_iff_isClickable
    (ref : option DOMRect) (w : Window) (e : MouseEvent) :
  exists c m,
    Clicks.handleMouseClick ref true w e = Some c
    /\ MouseMoves.handleMouseMove ref true w e = Some m
    /\ (Clicks.isClickable c = true <-> is_Some (Clicks.clickableElement c))
    /\ (is_Some (Clicks.tree c) -> Clicks.isClickable c = true)
    /\ (MouseMoves.isClickable m = true <-> is_Some (MouseMoves.clickableElement m))
    /\ (is_Some (MouseMoves.tree m) -> MouseMoves.isClickable m = true).
Proof.
  destruct (handleMouseClick_allowed ref w e)
    as (c & Hc & _ & _ & _ & _ & _ & Hic & Hce & Htc & _).
  destruct (handleMouseMove_allowed ref w e)
    as (m & Hm & _ & _ & _ & _ & _ & Him & Hme & Htm & _).
  exists c, m. split; [exact Hc|]. split; [exact Hm|].
  rewrite Hic, Hce, Htc, Him, Hme, Htm.
  change (MouseMoves.isClickable_ (target e)) with (Clicks.isClickable_ (target e)).
  assert (Hnone : forall A : Type, ~ is_Some (@None A)) by (intros A [x Hx]; discriminate Hx).
  destruct (Clicks.isClickable_ (target e)).
  - split; [split; [intros _; now eexists | reflexivity]|].
    split; [reflexivity|].
    split; [split; [intros _; now eexists | reflexivity] | reflexivity].
  - split; [split; [discriminate | intros H; now apply Hnone in H]|].
    split; [intros H; now apply Hnone in H|].
    split; [split; [discriminate | intros H; now apply Hnone in H]|].
    intros H; now apply Hnone in H.
Qed.

(** X3: the [tree] of a clickable target grows by one segment for each level
    of nesting: under a parent it is the ancestor path of the parent, then
    " > ", then the lowercase tag name of the target; for the root element it
    is that name alone. *)
Theorem X3_tree_extends_the_parent_path
    (ref : option DOMRect) (w : Window) (e : MouseEvent) :
  Clicks.isClickable_ (target e) = true ->
  tagName (target e) <> "" ->
  exists c m,
    Clicks.handleMouseClick ref true w e = Some c
    /\ MouseMoves.handleMouseMove ref true w e = Some m
    /\ MouseMoves.tree m = Clicks.tree c
    /\ Clicks.tree c
       = Some (match parentElement (target e) with
               | Some p => ancestor_path p ++ " > " ++ toLowerCase (tagName (target e))
               | None => toLowerCase (tagName (target e))
               end).
Proof.
  intros Hk Hne.
  destruct (handleMouseClick_allowed ref w e)
    as (c & Hc & _ & _ & _ & _ & _ & _ & _ & Htc & _).
  destruct (handleMouseMove_allowed ref w e)
    as (m & Hm & _ & _ & _ & _ & _ & _ & _ & Htm & _).
  rewrite Clicks_treeAsString_path in Htc.
  rewrite MouseMoves_treeAsString_path, isClickable_agree in Htm.
  rewrite Hk in Htc, Htm.
  apply ancestor_path_nonempty, String.eqb_neq in Hne. rewrite Hne in Htc, Htm.
  exists c, m. split; [exact Hc|]. split; [exact Hm|]. split; [congruence|].
  rewrite Htc. f_equal.
  destruct (target e) as [t o a [p|]]; cbn [parentElement tagName].
  - apply ancestor_path_child.
  - reflexivity.
Qed.

(** X4: the [clickType] of a click record is "left" exactly when the button
    code equals 0, "right" exactly when it equals 2, and empty exactly when
    it equals neither (as for a middle button, or a code that is not a
    number). *)
Theorem X4_clickType_by_button (ref : option DOMRect) (w : Window) (e : MouseEvent) :
  exists c,
    Clicks.handleMouseClick ref true w e = Some c
    /\ (Clicks.clickType c = "left" <-> (button e =? 0)%float = true)
    /\ (Clicks.clickType c = "right" <-> (button e =? 2)%float = true)
    /\ (Clicks.clickType c = ""
        <-> (button e =? 0)%float = false /\ (button e =? 2)%float = false).
Proof.
  unfold Clicks.handleMouseClick. cbn [negb].
  destruct (Clicks.isClickable_ (target e)); cbv zeta; cbv iota;
    (eexists; split; [reflexivity|]); cbn [Clicks.clickType];
    pose proof (eqb_zero_not_two (button e)) as Hx;
    destruct (button e =? 0)%float;
    try (rewrite (Hx eq_refl)); try destruct (button e =? 2)%float;
    repeat split; intros; try congruence; try discriminate;
    match goal with H : _ /\ _ |- _ => destruct H; discriminate end.
Qed.

(** X5: a move record does not depend on the button of the event: the
    handler works out a click type and leaves it out of the record. *)
Theorem X5_move_record_ignores_the_button
    (ref : option DOMRect) (allowRecord : bool) (w : Window) (e : MouseEvent)
    (button' : number) :
  MouseMoves.handleMouseMove ref allowRecord w
    (mkMouseEvent (target e) button' (pageX e) (pageY e))
  = MouseMoves.handleMouseMove ref allowRecord w e.
Proof.
  unfold MouseMoves.handleMouseMove. destruct allowRecord; [|reflexivity].
  cbn [negb target pageX pageY]. cbv iota.
  destruct (MouseMoves.isClickable_ (target e)); reflexivity.
Qed.

End PointerRecordsMore.

Lemma X3_witness :
  exists c,
    Clicks.handleMouseClick (Some Page.container) true Page.window (Page.pointer Page.card)
    = Some c
    /\ Clicks.tree c = Some "html > body > div".
Proof.
  destruct (X3_tree_extends_the_parent_path (Some Page.container) Page.window
              (Page.pointer Page.card))
    as (c & m & Hc & _ & _ & Ht); [reflexivity | discriminate |].
  exists c. split; [exact Hc | exact Ht].
Defined.

(** ** The form record and the page record *)

Section FormAndPageMore.
Import DOM Spec.

(** X6: a submission has its default action prevented exactly when
    recording is allowed, and exactly then a form record is published: with
    recording off the browser submits the form as usual. *)
Theorem X6_default_prevented_iff_recorded
    (allowRecord : bool) (document : FormSubmissions.Document)
    (e : FormSubmissions.SubmitEvent) :
  let h := FormSubmissions.handleFormSubmissions allowRecord document e in
  FormSubmissions.defaultPrevented h = allowRecord
  /\ (is_Some (FormSubmissions.setForm h) <-> allowRecord = true).
Proof.
  destruct allowRecord; cbv zeta.
  - split; [reflexivity|]. split; [reflexivity|].
    intros _. unfold FormSubmissions.handleFormSubmissions. cbn [negb FormSubmissions.setForm].
    exact (ex_intro _ _ eq_refl).
  - split; [reflexivity|]. split; [|discriminate].
    intros [x H]. discriminate H.
Qed.

(** X7: the form record depends on the document only through the names of
    its password inputs: documents with the same such names, in whatever
    order and number, give the same record for the same submission. *)
Theorem X7_record_depends_on_password_names_only
    (d1 d2 : FormSubmissions.Document) (e : FormSubmissions.SubmitEvent) :
  (forall k, password_name d1 k <-> password_name d2 k) ->
  FormSubmissions.handleFormSubmissions true d1 e
  = FormSubmissions.handleFormSubmissions true d2 e.
Proof.
  intros Hsame.
  destruct (handleFormSubmissions_lookup d1 e) as (n1 & -> & H1).
  destruct (handleFormSubmissions_lookup d2 e) as (n2 & -> & H2).
  do 2 f_equal. apply map_eq. intros k. rewrite H1, H2.
  destruct (deleted (FormSubmissions.querySelectorAll_password d1) k) eqn:E1;
    destruct (deleted (FormSubmissions.querySelectorAll_password d2) k) eqn:E2;
    try reflexivity.
  - apply deleted_password_name, Hsame, deleted_password_name in E1. congruence.
  - apply deleted_password_name, Hsame, deleted_password_name in E2. congruence.
Qed.

(** X8: when every enabled, named control of the submitted form bears the
    name of a password input of the document (as in a form of passwords
    only, or a form with no such control at all), the record published is
    the empty map; it is published all the same. *)
Theorem X8_only_password_names_gives_the_empty_record
    (document : FormSubmissions.Document) (e : FormSubmissions.SubmitEvent) :
  (forall el, In el (FormSubmissions.elements (FormSubmissions.target e)) ->
              FormSubmissions.disabled el = false ->
              FormSubmissions.name el <> "" ->
              password_name document (FormSubmissions.name el)) ->
  FormSubmissions.handleFormSubmissions true document e
  = FormSubmissions.mkHandled true (Some ∅).
Proof.
  intros Hall.
  destruct (handleFormSubmissions_lookup document e) as (n & -> & Hl).
  do 2 f_equal. apply map_eq. intros k. rewrite Hl, lookup_empty.
  destruct (deleted _ k) eqn:Hd; [reflexivity|].
  destruct (last_value k (FormSubmissions.FormData (FormSubmissions.target e)))
    as [v|] eqn:Hv; [|reflexivity].
  apply last_value_In, FormData_In in Hv as (el & Hin & Hdis & Hne & Hk & _).
  specialize (Hall el Hin Hdis Hne). rewrite Hk in Hall.
  apply deleted_password_name in Hall. congruence.
Qed.

(** X9: with [allowRecord] false the page watcher sets no interval: whatever
    the URLs of the ticks, the record stays as it is and nothing is
    updated. *)
Theorem X9_page_watcher_off_keeps_the_record
    (pageDetails : option DetectPageChange.PageDetails) (ticks : list Window) :
  DetectPageChange.run false pageDetails ticks = pageDetails
  /\ DetectPageChange.updates false pageDetails ticks = 0.
Proof.
  split.
  - unfold DetectPageChange.run. induction ticks as [|w ticks IH]; [reflexivity|].
    cbn [fold_left]. exact IH.
  - induction ticks as [|w ticks IH]; [reflexivity|].
    cbn [DetectPageChange.updates]. exact IH.
Qed.

(** X10: after a run of ticks that is not empty, the page record holds the
    URL the browser had at the last of them, whatever it held before. *)
Theorem X10_page_record_holds_the_last_url
    (pageDetails : option DetectPageChange.PageDetails) (ticks : list Window) (w : Window) :
  exists p,
    DetectPageChange.run true pageDetails (ticks ++ [w]) = Some p
    /\ DetectPageChange.url p = href w.
Proof.
  unfold DetectPageChange.run. rewrite fold_left_app. cbn [fold_left].
  destruct (fold_left (DetectPageChange.tick true) ticks pageDetails) as [p|].
  - apply tick_url.
  - eexists. split; reflexivity.
Qed.

End FormAndPageMore.

Lemma X7_witness :
  FormSubmissions.handleFormSubmissions true Page.document
    (FormSubmissions.mkSubmitEvent Page.pin_form)
  = FormSubmissions.handleFormSubmissions true
      (FormSubmissions.mkDocument
         [Page.pin_password_field; Page.secret_field; Page.pin_password_field])
      (FormSubmissions.mkSubmitEvent Page.pin_form).
Proof.
  apply X7_record_depends_on_password_names_only.
  intros k. unfold Spec.password_name. split.
  - intros (input & Hin & Hp & Hn). vm_compute in Hin.
    destruct Hin as [<-|[<-|[<-|[<-|[<-|[]]]]]]; try discriminate Hp.
    + exists Page.secret_field. vm_compute. tauto.
    + exists Page.pin_password_field. vm_compute. tauto.
  - intros (input & Hin & Hp & Hn). vm_compute in Hin.
    destruct Hin as [<-|[<-|[<-|[]]]].
    + exists Page.pin_password_field. vm_compute. tauto.
    + exists Page.secret_field. vm_compute. tauto.
    + exists Page.pin_password_field. vm_compute. tauto.
Defined.

Lemma X8_witness :
  FormSubmissions.handleFormSubmissions true Page.document
    (FormSubmissions.mkSubmitEvent (FormSubmissions.mkForm [Page.secret_field]))
  = FormSubmissions.mkHandled true (Some ∅).
Proof.
  apply X8_only_password_names_gives_the_empty_record.
  intros el Hin _ _. vm_compute in Hin. destruct Hin as [<-|[]].
  exists Page.secret_field. vm_compute. tauto.
Defined.

(** ** The coordinator over runs of inputs *)

Module Runs.

(** The input is a directive from the server. *)
Definition is_directive (i : FlowProvider.Input) : bool :=
  match i with
  | FlowProvider.GetRecordingInstructions _ => true
  | _ => false
  end.

(** The input is the connect of the socket. *)
Definition is_connect (i : FlowProvider.Input) : bool :=
  match i with
  | FlowProvider.connect => true
  | _ => false
  end.

(** No message of the list carries a record. *)
Definition record_free (out : list FlowProvider.Emit) : bool :=
  forallb (fun m => negb (Spec.is_record_message m)) out.

End Runs.

Section CoordinatorMore.
Import DOM Spec FlowProvider Rounds Runs.

Lemma run_effects_offline (changed : list Dep) (s : State) :
  connectStatus s = false -> emitted (run_effects changed s) = [].
Proof.
  intros Hoff. rewrite run_effects_closed, before_forward_closed. cbv zeta.
  rewrite Hoff. cbn [andb]. rewrite andb_false_r. reflexivity.
Qed.

Lemma commit_offline (fuel : nat) (changed : list Dep) (s : State) :
  connectStatus s = false -> emitted (commit fuel changed s) = [].
Proof.
  revert changed s. induction fuel as [|fuel IH]; intros changed s Hoff; [reflexivity|].
  destruct changed as [|d changed]; [reflexivity|].
  cbn [commit emitted]. rewrite (run_effects_offline _ _ Hoff). cbn [app].
  apply IH. destruct (run_effects_session (d :: changed) s) as (Hcs & _). congruence.
Qed.

Lemma handle_connectStatus (b : Browser) (s : State) (i : Input) :
  is_connect i = false -> connectStatus s = false ->
  connectStatus (fst (handle b s i)) = false.
Proof.
  intros Hi Hoff.
  destruct i; try discriminate Hi; unfold handle, setConnectStatus;
    try match goal with
        | |- context [match ?h with Some _ => _ | None => _ end] => destruct h
        | |- context [if ?h then _ else _] => destruct h
        end; try exact Hoff; reflexivity.
Qed.

(** The renders that follow a change of the page record: while connected
    the page details go out twice and every pending record is drained. *)
Lemma commit_page (s : State) :
  commit 2 [pageDetails_] s
  = if connectStatus s && socketRef s
    then mkCommit (drained s) []
           ([events_page (pageDetails s) (recordingsId s);
             events_page (pageDetails s) (recordingsId s)] ++ forwarded s)
    else mkCommit s [] [].
Proof.
  destruct s as [u cs us rt ri sr cp mp fm sp pd].
  destruct cs, sr, cp, mp, fm, sp; reflexivity.
Qed.

Lemma pending_records_drained (s : State) : pending_records (drained s) = [].
Proof.
  destruct s as [u cs us rt ri sr cp mp fm sp pd]. destruct cp, mp, fm, sp; reflexivity.
Qed.

Lemma pending_records_same (s n : State) :
  same_records s n -> pending_records n = pending_records s.
Proof.
  destruct s, n. unfold same_records. cbn. intros (-> & -> & -> & ->). reflexivity.
Qed.

Lemma pending_records_nil (c : Category) (s : State) :
  pending_records s = [] -> pending c s = None.
Proof.
  destruct s as [u cs us rt ri sr cp mp fm sp pd].
  destruct c, cp, mp, fm, sp; cbn; intros H; try reflexivity; discriminate H.
Qed.

(** Without a pending record, a round of effects emits no record and leaves
    none pending. *)
Lemma run_effects_quiet (changed : list Dep) (s : State) :
  pending_records s = [] ->
  pending_records (next (run_effects changed s)) = []
  /\ record_free (emitted (run_effects changed s)) = true.
Proof.
  intros Hq. rewrite run_effects_closed. cbv zeta.
  pose proof (pending_records_same _ _ (before_forward_same_records changed s)) as Hsame.
  assert (Hbf : record_free (emitted (before_forward changed s)) = true).
  { rewrite before_forward_closed. cbn [emitted].
    destruct (connectStatus s && _), (depends [pageDetails_] changed),
      (depends [connectStatus_; userId_] changed); reflexivity. }
  destruct (depends forward_deps changed && _); cbn [next emitted].
  - split; [apply pending_records_drained|].
    unfold forwarded. rewrite Hq. cbn [map]. now rewrite app_nil_r.
  - split; [congruence | exact Hbf].
Qed.

Lemma commit_quiet (fuel : nat) (changed : list Dep) (s : State) :
  pending_records s = [] ->
  pending_records (next (commit fuel changed s)) = []
  /\ record_free (emitted (commit fuel changed s)) = true.
Proof.
  revert changed s. induction fuel as [|fuel IH]; intros changed s Hq; [now split|].
  destruct changed as [|d changed]; [now split|].
  cbn [commit next emitted].
  destruct (run_effects_quiet (d :: changed) s Hq) as [Hq1 Hf1].
  destruct (IH (dirty (run_effects (d :: changed) s)) _ Hq1) as [Hq2 Hf2].
  split; [exact Hq2|]. unfold record_free in *. rewrite forallb_app, Hf1, Hf2. reflexivity.
Qed.

(** With no category enabled, an input that is no directive enables none
    and leaves the records as they are. *)
Lemma handle_quiet (b : Browser) (s : State) (i : Input) :
  is_directive i = false -> recordingTypes s = [] ->
  recordingTypes (fst (handle b s i)) = []
  /\ pending_records (fst (handle b s i)) = pending_records s.
Proof.
  intros Hi Hrt. destruct s as [u cs us rt ri sr cp mp fm sp pd]. cbn in Hrt. subst rt.
  destruct i; try discriminate Hi; unfold handle, setConnectStatus;
    cbn [recordingTypes includes existsb Clicks.handleMouseClick MouseMoves.handleMouseMove
         Scrolls.handleMouseScroll FormSubmissions.handleFormSubmissions
         FormSubmissions.setForm negb];
    try match goal with
        | |- context [match ?h with Some _ => _ | None => _ end] => destruct h
        | |- context [if ?h then _ else _] => destruct h
        end; split; reflexivity.
Qed.

(** The record captured into a state with nothing pending is the one
    record to forward. *)
Lemma handle_captured_fresh (b : Browser) (s : State) (i : Input) (c : Category) (r : Event) :
  category_of i = Some c -> captured b s i = Some r -> pending_records s = [] ->
  forwarded (fst (handle b s i)) = [events r (recordingsId s) (pageDetails s)].
Proof.
  intros Hc Hr Hq. destruct s as [u cs us rt ri sr cp mp fm sp pd].
  destruct i; try discriminate Hc; revert Hr;
    unfold captured, handle, is_enabled, category_name;
    match goal with |- option_map _ ?h = Some _ -> _ => destruct h end;
    intros [= <-]; destruct cp, mp, fm, sp; try discriminate Hq; reflexivity.
Qed.

Lemma run_effects_userId (changed : list Dep) (s : State) :
  uid s = userId s \/ depends [uid_] changed = true ->
  uid (next (run_effects changed s)) = userId (next (run_effects changed s)).
Proof.
  intros H. rewrite run_effects_closed, before_forward_closed. cbv zeta.
  destruct s as [u cs us rt ri sr cp mp fm sp pd]. cbn [uid userId] in *.
  set (d := depends [uid_] changed) in *. clearbody d.
  destruct (depends forward_deps changed && _); destruct d; cbn; try reflexivity;
    destruct H as [H|H]; congruence.
Qed.

Lemma commit_userId (changed : list Dep) (s : State) :
  uid s = userId s \/ depends [uid_] changed = true ->
  uid (next (commit 2 changed s)) = userId (next (commit 2 changed s)).
Proof.
  intros H. destruct changed as [|d changed].
  - destruct H as [H|H]; [exact H | discriminate H].
  - cbn [commit next].
    pose proof (run_effects_userId (d :: changed) s H) as H1.
    destruct (dirty (run_effects (d :: changed) s)) as [|d' ch'] eqn:Hd; [exact H1|].
    cbn [next]. apply run_effects_userId. now left.
Qed.

End CoordinatorMore.

Section CoordinatorRuns.
Import DOM Spec FlowProvider Rounds Runs.

Lemma run_offline (inputs : list (Browser * Input)) (s : State) :
  forallb (fun bi => negb (is_connect (snd bi))) inputs = true ->
  connectStatus s = false ->
  snd (run s inputs) = [] /\ connectStatus (fst (run s inputs)) = false.
Proof.
  revert s. induction inputs as [|[b i] inputs IH]; intros s Hin Hoff; [now split|].
  cbn [forallb snd] in Hin. apply andb_prop in Hin as [Hi Hin]. apply negb_true_iff in Hi.
  cbn [run]. unfold step.
  pose proof (handle_connectStatus b s i Hi Hoff) as H1.
  destruct (handle b s i) as [s1 ch]. cbn [fst] in H1.
  pose proof (commit_offline 2 ch s1 H1) as Hout.
  destruct (commit_session 2 ch s1) as (Hcs & _).
  destruct (IH (next (commit 2 ch s1)) Hin) as [Ho Hc]; [congruence|].
  destruct (run (next (commit 2 ch s1)) inputs) as [s' out].
  cbn [fst snd] in *. rewrite Hout, Ho. now split.
Qed.

(** X11: from the mount of the component until the socket first connects,
    nothing is emitted, whatever is clicked, moved, scrolled, submitted or
    polled and whatever directive or user id arrives. *)
Theorem X11_nothing_is_emitted_before_the_first_connect
    (w : Window) (u : string) (inputs : list (Browser * Input)) :
  forallb (fun bi => negb (is_connect (snd bi))) inputs = true ->
  emitted (mount w u) = []
  /\ snd (run (next (mount w u)) inputs) = []
  /\ connectStatus (fst (run (next (mount w u)) inputs)) = false.
Proof.
  intros Hin. rewrite mount_closed. split; [reflexivity|].
  apply run_offline; [exact Hin | reflexivity].
Qed.

(** X12: an input after which the component is not connected emits
    nothing, a disconnect included. *)
Theorem X12_no_message_while_disconnected (b : Browser) (s : State) (i : Input) :
  connectStatus (next (step b s i)) = false ->
  emitted (step b s i) = [].
Proof.
  unfold step. destruct (handle b s i) as [s1 ch]. intros Hoff.
  apply commit_offline.
  destruct (commit_session 2 ch s1) as (Hcs & _). congruence.
Qed.

(** X13: when the socket connects, the one message emitted asks for the
    directive of the current user id; no record is forwarded by the connect
    itself, so what was captured while disconnected stays pending. *)
Theorem X13_connect_asks_for_the_directive_only (b : Browser) (s : State) :
  socketRef s = true ->
  connectStatus s = false ->
  step b s connect = mkCommit (set_connectStatus true s) [] [getData (userId s)]
  /\ Forall (fun c => pending c (next (step b s connect)) = pending c s) categories.
Proof.
  destruct s as [u cs us rt ri sr cp mp fm sp pd]. cbn [socketRef connectStatus].
  intros -> ->. split; [reflexivity|].
  repeat (apply Forall_cons; split); try apply Forall_nil; reflexivity.
Qed.

(** X14: a poll that finds a new URL while connected emits the page message
    twice (the component declares that effect twice), then one message for
    each pending record, with the new page details, and leaves none
    pending; while not connected it records the page and emits nothing. *)
Theorem X14_page_change_is_announced_twice_and_drains (b : Browser) (s : State)
    (p : DetectPageChange.PageDetails) :
  socketRef s = true ->
  DetectPageChange.interval true (pageDetails s) (window b) = Some p ->
  let s' := set_pageDetails (Some p) s in
  step b s interval
  = if connectStatus s
    then mkCommit (drained s') []
           ([events_page (Some p) (recordingsId s); events_page (Some p) (recordingsId s)]
            ++ forwarded s')
    else mkCommit s' [] [].
Proof.
  intros Hs Hp s'. unfold step, handle. rewrite Hp, commit_page.
  destruct s as [u cs us rt ri sr cp mp fm sp pd]. cbn [socketRef] in Hs. subst sr.
  destruct cs; reflexivity.
Qed.

(** X15: a capture while connected drains every observer at once: the
    messages emitted are one for each pending record, in the order click,
    move, form, scroll, each with the session id and the page details; no
    record is pending afterwards; and when nothing was pending before, the
    capture emits exactly one message. *)
Theorem X15_capture_while_connected_drains_all
    (b : Browser) (s : State) (i : Input) (c : Category) (r : Event) :
  socketRef s = true ->
  connectStatus s = true ->
  category_of i = Some c ->
  captured b s i = Some r ->
  let k := step b s i in
  emitted k = forwarded (fst (handle b s i))
  /\ In (events r (recordingsId s) (pageDetails s)) (emitted k)
  /\ pending_records (next k) = []
  /\ (pending_records s = [] -> emitted k = [events r (recordingsId s) (pageDetails s)]).
Proof.
  intros Hs Hcs Hc Hr k.
  destruct (handle_captured b s i c r Hc Hr) as (s1 & Hh & Hp & Hcs1 & Hsr1 & Hri & Hpd).
  assert (Hk : k = mkCommit (drained s1) [] (forwarded s1)).
  { unfold k, step. rewrite Hh, commit_record, Hcs1, Hsr1, Hs, Hcs. reflexivity. }
  rewrite Hk, Hh. cbn [fst emitted next].
  split; [reflexivity|].
  split; [rewrite <- Hri, <- Hpd; now apply forwarded_In with c|].
  split; [apply pending_records_drained|].
  intros Hq. pose proof (handle_captured_fresh b s i c r Hc Hr Hq) as Hf.
  now rewrite Hh in Hf.
Qed.

(** X16: a directive gates what follows it: after it, an event of a
    category gives a record exactly when the name of the category is in the
    list the directive enabled. *)
Theorem X16_directive_gates_later_captures
    (b b' : Browser) (s : State) (data : RecordingDirective) (i : Input) (c : Category) :
  category_of i = Some c ->
  is_Some (captured b' (next (step b s (GetRecordingInstructions data))) i)
  <-> includes (enabled data) (category_name c) = true.
Proof.
  intros Hc.
  assert (He : is_enabled c (next (step b s (GetRecordingInstructions data)))
               = includes (enabled data) (category_name c)) by reflexivity.
  split.
  - intros [r Hr].
    destruct (includes (enabled data) (category_name c)) eqn:Hi; [reflexivity|].
    rewrite (captured_disabled _ _ _ _ Hc He) in Hr. discriminate Hr.
  - intros Hi. rewrite Hi in He. now apply captured_enabled with c.
Qed.

(** X17: when the [uid] prop changes while connected, the user id follows
    it and the one message emitted asks for the directive of the new id; the
    enabled categories, the session id and the pending records stay as they
    were. *)
Theorem X17_new_user_id_asks_for_its_directive (b : Browser) (s : State) (uid' : string) :
  socketRef s = true ->
  connectStatus s = true ->
  userId s = uid s ->
  uid' <> uid s ->
  let k := step b s (props uid') in
  emitted k = [getData uid']
  /\ next k = set_userId uid' (set_uid uid' s).
Proof.
  destruct s as [u cs us rt ri sr cp mp fm sp pd]. cbn [socketRef connectStatus userId uid].
  intros -> -> -> Hne. unfold step, handle. cbn [uid].
  apply String.eqb_neq in Hne. rewrite Hne.
  cbn [commit]. rewrite !run_effects_closed, !before_forward_closed. cbv zeta.
  cbn. rewrite Hne. cbn. split; reflexivity.
Qed.

Lemma step_invariant (b : Browser) (s : State) (i : Input) :
  socketRef s = true /\ is_Some (pageDetails s) /\ userId s = uid s ->
  socketRef (next (step b s i)) = true
  /\ is_Some (pageDetails (next (step b s i)))
  /\ userId (next (step b s i)) = uid (next (step b s i)).
Proof.
  intros (Hs & Hp & Hu). unfold step.
  destruct (handle_socketRef b s i) as [Hs1 Hp1].
  assert (Hu1 : uid (fst (handle b s i)) = userId (fst (handle b s i))
                \/ depends [uid_] (snd (handle b s i)) = true).
  { destruct i; unfold handle, setConnectStatus;
      try match goal with
          | |- context [match ?h with Some _ => _ | None => _ end] => destruct h
          | |- context [if ?h then _ else _] => destruct h
          end; try (left; symmetry; exact Hu); right; reflexivity. }
  destruct (handle b s i) as [s1 ch]. cbn [fst snd] in *.
  destruct (commit_session 2 ch s1) as (_ & _ & _ & Hpd & _ & Hsr).
  split; [apply Hsr; congruence|]. split; [rewrite Hpd; auto|].
  symmetry. now apply commit_userId.
Qed.

(** X18: in every state the mounted component reaches, the socket is
    stored, the page record is present, the user id is the [uid] prop, and
    the renders have settled. *)
Theorem X18_invariants_of_reachable_states
    (w : Window) (u : string) (inputs : list (Browser * Input)) (b : Browser) (i : Input) :
  let s := fst (run (next (mount w u)) inputs) in
  socketRef s = true
  /\ is_Some (pageDetails s)
  /\ userId s = uid s
  /\ dirty (step b s i) = [].
Proof.
  cbv zeta. rewrite mount_closed. cbn [next].
  assert (H0 : socketRef (set_socketRef true (initial w u)) = true
               /\ is_Some (pageDetails (set_socketRef true (initial w u)))
               /\ userId (set_socketRef true (initial w u))
                  = uid (set_socketRef true (initial w u)))
    by (split; [reflexivity | split; [now eexists | reflexivity]]).
  revert H0. generalize (set_socketRef true (initial w u)).
  induction inputs as [|[b0 i0] inputs IH]; intros s H0.
  - cbn [run fst]. destruct H0 as (H1 & H2 & H3). repeat split; try assumption.
    unfold step. destruct (handle b s i). apply commit_settles.
  - cbn [run]. specialize (IH (next (step b0 s i0)) (step_invariant b0 s i0 H0)).
    destruct (run (next (step b0 s i0)) inputs) as [s' out]. exact IH.
Qed.

Lemma run_quiet (inputs : list (Browser * Input)) (s : State) :
  forallb (fun bi => negb (is_directive (snd bi))) inputs = true ->
  recordingTypes s = [] -> pending_records s = [] ->
  record_free (snd (run s inputs)) = true
  /\ recordingTypes (fst (run s inputs)) = []
  /\ pending_records (fst (run s inputs)) = [].
Proof.
  revert s. induction inputs as [|[b i] inputs IH]; intros s Hin Hrt Hq; [now repeat split|].
  cbn [forallb snd] in Hin. apply andb_prop in Hin as [Hi Hin]. apply negb_true_iff in Hi.
  cbn [run]. unfold step.
  destruct (handle_quiet b s i Hi Hrt) as [Hrt1 Hq1].
  destruct (handle b s i) as [s1 ch]. cbn [fst] in Hrt1, Hq1.
  destruct (commit_quiet 2 ch s1) as [Hq2 Hf2]; [congruence|].
  destruct (commit_session 2 ch s1) as (_ & Hrt2 & _).
  destruct (IH (next (commit 2 ch s1)) Hin) as (Hf & Hr & Hp); [congruence | exact Hq2 |].
  destruct (run (next (commit 2 ch s1)) inputs) as [s' out]. cbn [fst snd] in *.
  split; [|now split]. unfold record_free in *. now rewrite forallb_app, Hf2, Hf.
Qed.

(** X19: as long as no directive has arrived, the mounted component records
    nothing: no category is enabled, no record becomes pending, and no
    message with a record is emitted, whatever else happens. *)
Theorem X19_nothing_is_recorded_before_a_directive
    (w : Window) (u : string) (inputs : list (Browser * Input)) :
  forallb (fun bi => negb (is_directive (snd bi))) inputs = true ->
  record_free (snd (run (next (mount w u)) inputs)) = true
  /\ recordingTypes (fst (run (next (mount w u)) inputs)) = []
  /\ pending_records (fst (run (next (mount w u)) inputs)) = [].
Proof.
  intros Hin. rewrite mount_closed. cbn [next]. apply run_quiet; [exact Hin | reflexivity..].
Qed.

(** X20: after a directive with session id [n] that enables clicks, a click
    on a connected component with nothing pending is forwarded in one
    message that carries [n] and the page details; and a scroll, when the
    directive does not enable scrolls, emits nothing. *)
Theorem X20_records_carry_the_session_of_the_directive
    (b b' : Browser) (s : State) (names : list string) (n : number) (e : MouseEvent) :
  socketRef s = true ->
  connectStatus s = true ->
  pending_records s = [] ->
  includes names "clicks" = true ->
  let directive := GetRecordingInstructions (mkDirective names (object n)) in
  (exists r,
     Clicks.handleMouseClick (childRef b') true (window b') e = Some r
     /\ snd (run s [(b, directive); (b', mousedown e)])
        = [events (click r) (Some n) (pageDetails s)])
  /\ (includes names "scrolls" = false ->
      snd (run s [(b, directive); (b', scroll_event)]) = []).
Proof.
  intros Hs Hcs Hq Hn directive.
  set (s1 := next (step b s directive)).
  assert (Hs1 : socketRef s1 = true /\ connectStatus s1 = true /\ pending_records s1 = []
                /\ recordingsId s1 = Some n /\ pageDetails s1 = pageDetails s
                /\ recordingTypes s1 = names).
  { destruct s as [u cs us rt ri sr cp mp fm sp pd]. repeat split; assumption. }
  destruct Hs1 as (Hs1 & Hcs1 & Hq1 & Hri1 & Hpd1 & Hrt1).
  assert (Hout1 : emitted (step b s directive) = []) by reflexivity.
  split.
  - destruct (handleMouseClick_allowed (childRef b') (window b') e) as (r & Hr & _).
    exists r. split; [exact Hr|].
    cbn [run snd]. fold s1. rewrite Hout1. cbn [app].
    assert (Hcap : captured b' s1 (mousedown e) = Some (click r)).
    { unfold captured, is_enabled, category_name. rewrite Hrt1, Hn, Hr. reflexivity. }
    destruct (handle_captured b' s1 (mousedown e) clicks (click r) eq_refl Hcap)
      as (s2 & Hh & _ & Hcs2 & Hsr2 & _).
    pose proof (handle_captured_fresh b' s1 (mousedown e) clicks (click r) eq_refl Hcap Hq1)
      as Hf.
    unfold step. rewrite Hh in *. cbn [fst] in Hf. cbn [dep_of] in Hh.
    rewrite (commit_record clicks s2), Hcs2, Hsr2, Hs1, Hcs1. cbn [andb emitted].
    rewrite app_nil_r, Hf, Hri1, Hpd1. reflexivity.
  - intros Hoff. cbn [run snd]. fold s1. rewrite Hout1. cbn [app].
    assert (Hd : is_enabled scrolls s1 = false).
    { unfold is_enabled, category_name. now rewrite Hrt1. }
    pose proof (captured_disabled b' s1 scroll_event scrolls eq_refl Hd) as Hno.
    unfold step. rewrite (handle_not_captured b' s1 scroll_event scrolls eq_refl Hno).
    reflexivity.
Qed.

End CoordinatorRuns.

Lemma X11_witness :
  snd (FlowProvider.run Page.mounted
         [(Page.browser, FlowProvider.mousedown (Page.pointer Page.buy));
          (Page.browser, FlowProvider.GetRecordingInstructions Page.directive);
          (Page.browser, FlowProvider.mousedown (Page.pointer Page.buy));
          (Page.browser, FlowProvider.interval)]) = [].
Proof.
  apply (X11_nothing_is_emitted_before_the_first_connect Page.window "u1"). reflexivity.
Defined.

Lemma X12_witness :
  FlowProvider.emitted (FlowProvider.step Page.browser Page.recording FlowProvider.disconnect)
  = [].
Proof.
  apply X12_no_message_while_disconnected. vm_compute. reflexivity.
Defined.

Lemma X13_witness :
  let s := FlowProvider.next
             (FlowProvider.step Page.browser Page.recording_offline
                (FlowProvider.mousedown (Page.pointer Page.buy))) in
  FlowProvider.emitted (FlowProvider.step Page.browser s FlowProvider.connect)
  = [FlowProvider.getData "u1"]
  /\ is_Some (Spec.pending Spec.clicks
                (FlowProvider.next (FlowProvider.step Page.browser s FlowProvider.connect))).
Proof.
  intros s.
  destruct (X13_connect_asks_for_the_directive_only Page.browser s) as [Hstep Hpend];
    [reflexivity | reflexivity |].
  split.
  - rewrite Hstep. reflexivity.
  - apply Forall_inv in Hpend. rewrite Hpend. vm_compute. now eexists.
Defined.

Lemma X14_witness :
  let b := FlowProvider.mkBrowser Page.moved Page.document (Some Page.container) in
  let p := DetectPageChange.mkPageDetails "https://shop.example/pay" "Pay" in
  FlowProvider.emitted (FlowProvider.step b Page.recording FlowProvider.interval)
  = [FlowProvider.events_page (Some p) (Some 7%float);
     FlowProvider.events_page (Some p) (Some 7%float)].
Proof.
  intros b p.
  rewrite (X14_page_change_is_announced_twice_and_drains b Page.recording p);
    reflexivity.
Defined.

Lemma X15_witness :
  exists r,
    FlowProvider.emitted
      (FlowProvider.step Page.browser Page.recording
         (FlowProvider.mousedown (Page.pointer Page.buy)))
    = [FlowProvider.events (FlowProvider.click r) (Some 7%float)
         (Some (DetectPageChange.mkPageDetails "https://shop.example/cart" "Cart"))]
    /\ Clicks.clickableElement r = Some "button".
Proof.
  destruct (Spec.captured Page.browser Page.recording
              (FlowProvider.mousedown (Page.pointer Page.buy))) as [r|] eqn:Hr;
    [|vm_compute in Hr; discriminate].
  destruct (X15_capture_while_connected_drains_all Page.browser Page.recording
              (FlowProvider.mousedown (Page.pointer Page.buy)) Spec.clicks r)
    as (_ & _ & _ & Hone); [reflexivity | reflexivity | reflexivity | exact Hr |].
  vm_compute in Hr. injection Hr as <-.
  eexists. split; [apply Hone; reflexivity | reflexivity].
Defined.

Lemma X16_witness :
  is_Some (Spec.captured Page.browser
             (FlowProvider.next
                (FlowProvider.step Page.browser Page.mounted
                   (FlowProvider.GetRecordingInstructions Page.directive)))
             (FlowProvider.mousedown (Page.pointer Page.buy))).
Proof.
  apply (X16_directive_gates_later_captures Page.browser Page.browser Page.mounted
           Page.directive (FlowProvider.mousedown (Page.pointer Page.buy)) Spec.clicks);
    reflexivity.
Defined.

Lemma X17_witness :
  FlowProvider.emitted (FlowProvider.step Page.browser Page.recording (FlowProvider.props "u2"))
  = [FlowProvider.getData "u2"].
Proof.
  apply (X17_new_user_id_asks_for_its_directive Page.browser Page.recording "u2");
    try reflexivity.
  vm_compute. discriminate.
Defined.

Lemma X19_witness :
  Runs.record_free
    (snd (FlowProvider.run Page.mounted
            [(Page.browser, FlowProvider.connect);
             (Page.browser, FlowProvider.mousedown (Page.pointer Page.buy));
             (Page.browser, FlowProvider.scroll_event)])) = true.
Proof.
  apply (X19_nothing_is_recorded_before_a_directive Page.window "u1"). reflexivity.
Defined.

Lemma X20_witness :
  let s := FlowProvider.next (FlowProvider.step Page.browser Page.mounted FlowProvider.connect) in
  snd (FlowProvider.run s
         [(Page.browser, FlowProvider.GetRecordingInstructions Page.directive);
          (Page.browser, FlowProvider.scroll_event)]) = [].
Proof.
  intros s.
  apply (X20_records_carry_the_session_of_the_directive Page.browser Page.browser s
           ["clicks"; "forms"] 7%float (Page.pointer Page.buy)); reflexivity.
Defined.

Section ScrollsMore.
Import DOM Spec FlowProvider.

(** X21: with scrolls enabled, a scroll event on a connected component with
    nothing pending is forwarded in exactly one message, whose record holds
    the scroll offsets and the size of the window and the time of the event,
    with the session id and the page details; the scroll record is cleaned
    up at once. *)
Theorem X21_scroll_is_forwarded_with_the_window_offsets (b : Browser) (s : State) :
  socketRef s = true ->
  connectStatus s = true ->
  pending_records s = [] ->
  includes (recordingTypes s) "scrolls" = true ->
  let k := step b s scroll_event in
  emitted k
  = [events
       (scroll {| Scrolls.scrollX := scrollX (window b);
                  Scrolls.scrollY := scrollY (window b);
                  Scrolls.windowWidth := innerWidth (window b);
                  Scrolls.windowHeight := innerHeight (window b);
                  Scrolls.timestamp := getTime (window b) |})
       (recordingsId s) (pageDetails s)]
  /\ ScrollPosition (next k) = null.
Proof.
  intros Hs Hcs Hq Hen k. unfold k, step, handle. rewrite Hen.
  cbn [Scrolls.handleMouseScroll negb].
  rewrite (commit_record scrolls). cbn [connectStatus socketRef set_ScrollPosition].
  rewrite Hs, Hcs. cbn [andb emitted next].
  destruct s as [u cs us rt ri sr cp mp fm sp pd].
  destruct cp, mp, fm, sp; try discriminate Hq; split; reflexivity.
Qed.

End ScrollsMore.

Lemma X21_witness :
  let s := FlowProvider.next
             (FlowProvider.step Page.browser Page.recording
                (FlowProvider.GetRecordingInstructions
                   (FlowProvider.mkDirective ["scrolls"] FlowProvider.undefined))) in
  FlowProvider.ScrollPosition
    (FlowProvider.next (FlowProvider.step Page.browser s FlowProvider.scroll_event))
  = FlowProvider.null.
Proof.
  intros s.
  apply (X21_scroll_is_forwarded_with_the_window_offsets Page.browser s); reflexivity.
Defined.
